(** * backend/server.js : authentication gate and role-scoped data access

    A shallow embedding of the Express handlers of [src/backend/server.js]
    (register, login, homework submission, homework listing, parent/child
    binding) together with the [authenticateToken] middleware.

    External collaborators are kept external:
    - [bcrypt] and [jsonwebtoken] are interfaces ([Bcrypt], [Jwt]) whose
      laws are the documented contract of the libraries;
    - the Supabase client is an in-memory relational store with a plan of
      injected failures and a log of the calls that were issued;
    - the text the handlers hand to [.or(...)] is built as the source
      builds it ([or_text]) and read by PostgREST ([Postgrest]), an
      interface that fixes the rows selected only for names made of
      letters, digits and [@ . _ -]: with any other name the lookup may
      select any rows of the table or fail.

    Handlers are state-passing functions over [World]; a JavaScript
    [throw] is the left summand of the handler monad and [try_catch] is
    the [try { ... } catch (error) { ... }] of every route.  [console.error]
    is not modelled.

    Roles are the strings of the source: [student] is the spec's
    submitter, [teacher] its reviewer, [parent] its guardian. *)

From Stdlib Require Import ZArith List String Ascii Bool Lia.
From Stdlib Require Import Permutation Sorted.
Import ListNotations.

Local Open Scope string_scope.
Local Open Scope Z_scope.

(** ** JavaScript values used by the handlers *)

(** A request field is either absent ([undefined]) or a string. *)
Definition JsField := option string.

(** [!x] on a field is false exactly for a non-empty string; [truthy]
    returns that string. *)
Definition truthy (x : JsField) : option string :=
  match x with
  | Some s => if String.eqb s "" then None else Some s
  | None => None
  end.

(** [x || d] with a string default. *)
Definition js_or (x : JsField) (d : string) : string :=
  match truthy x with
  | Some s => s
  | None => d
  end.

(** [`${x}`] inside a template literal. *)
Definition interpolate (x : JsField) : string :=
  match x with
  | Some s => s
  | None => "undefined"
  end.

(** [s.split(sep)] for a one-character separator. *)
Fixpoint split (sep : ascii) (s : string) : list string :=
  match s with
  | EmptyString => [EmptyString]
  | String c rest =>
      if Ascii.eqb c sep then EmptyString :: split sep rest
      else match split sep rest with
           | piece :: pieces => String c piece :: pieces
           | [] => [String c EmptyString]
           end
  end.

Fixpoint free_of (sep : ascii) (s : string) : bool :=
  match s with
  | EmptyString => true
  | String c rest => negb (Ascii.eqb c sep) && free_of sep rest
  end.

(** Names the PostgREST filter grammar reads as they stand: not empty,
    and made of letters, digits and [@ . _ -]. *)
Definition plain_char (c : ascii) : bool :=
  let n := nat_of_ascii c in
  (Nat.leb 48 n && Nat.leb n 57)
  || (Nat.leb 65 n && Nat.leb n 90)
  || (Nat.leb 97 n && Nat.leb n 122)
  || Ascii.eqb c "@" || Ascii.eqb c "." || Ascii.eqb c "_" || Ascii.eqb c "-".

Fixpoint plain_chars (s : string) : bool :=
  match s with
  | EmptyString => true
  | String c rest => plain_char c && plain_chars rest
  end.

Definition plain (s : string) : bool :=
  negb (String.eqb s "") && plain_chars s.

(** [`username.eq.${u},email.eq.${e}`] *)
Definition or_text (u e : string) : string :=
  "username.eq." ++ u ++ ",email.eq." ++ e.

(** Thrown values and the [error] member of a Supabase reply: the
    PostgREST error object (its [code] and [message]) or a library
    [Error] (no [code]). *)
Module JsError.
Record t := mk { code : option string; message : string }.
End JsError.

(** [error.code === c] *)
Definition code_is (e : JsError.t) (c : string) : bool :=
  match JsError.code e with
  | Some c' => String.eqb c' c
  | None => false
  end.

(** ** Rows of the three tables *)

Module User.
Record t := mk {
  id : Z;
  username : string;
  email : string;
  password_hash : string;
  role : string;
  is_verified : bool
}.
End User.

Module Homework.
Record t := mk {
  student_id : Z;
  student_name : string;
  title : string;
  content : string;
  status : string;
  created_at : Z
}.
End Homework.

Module ParentChild.
Record t := mk { parent_id : Z; child_id : Z }.
End ParentChild.

(** ** The record store *)

Inductive UserFilter :=
| OrUsernameEmail (u e : string)   (* .or(`username.eq.${u},email.eq.${e}`) *)
| EqUsername (u : string).         (* .eq('username', u) *)

Inductive HomeworkFilter :=
| AllHomeworks                      (* no filter added to the query *)
| EqStudent (sid : Z)               (* .eq('student_id', sid) *)
| InStudents (sids : list Z).       (* .in('student_id', sids) *)

(** The store calls the handlers issue. *)
Inductive Call :=
| SelectUser (f : UserFilter)
| InsertUser (username email : string)
| InsertHomework (student_id : Z) (title : string)
| SelectHomeworks (f : HomeworkFilter)
| SelectParentChild (parent_id : Z)
| InsertParentChild (parent_id child_id : Z).

Definition is_insert (c : Call) : bool :=
  match c with
  | InsertUser _ _ | InsertHomework _ _ | InsertParentChild _ _ => true
  | _ => false
  end.

(** [faults] is the plan of injected failures: each store call consumes
    its head, [Some e] makes the call fail with [e] and leave the tables
    alone, [None] (or an exhausted plan) lets it run.  [log] records every
    call with its error, oldest first. *)
Record World := mkWorld {
  users : list User.t;
  homeworks : list Homework.t;
  parent_child : list ParentChild.t;
  next_user_id : Z;
  clock : Z;
  faults : list (option JsError.t);
  log : list (Call * option JsError.t)
}.

Definition initial_world : World :=
  mkWorld [] [] [] 1 0 [] [].

Definition with_users (us : list User.t) (n : Z) (w : World) : World :=
  mkWorld us (homeworks w) (parent_child w) n (clock w) (faults w) (log w).
Definition with_homeworks (hs : list Homework.t) (w : World) : World :=
  mkWorld (users w) hs (parent_child w) (next_user_id w) (clock w) (faults w) (log w).
Definition with_parent_child (ps : list ParentChild.t) (w : World) : World :=
  mkWorld (users w) (homeworks w) ps (next_user_id w) (clock w) (faults w) (log w).
Definition with_faults (fs : list (option JsError.t)) (w : World) : World :=
  mkWorld (users w) (homeworks w) (parent_child w) (next_user_id w) (clock w) fs (log w).
Definition with_clock (t : Z) (w : World) : World :=
  mkWorld (users w) (homeworks w) (parent_child w) (next_user_id w) t (faults w) (log w).
Definition logged (c : Call) (e : option JsError.t) (w : World) : World :=
  mkWorld (users w) (homeworks w) (parent_child w) (next_user_id w) (clock w)
          (faults w) (log w ++ [(c, e)]).

(** The tables alone, without the failure plan, the clock and the log. *)
Definition tables (w : World) :=
  (users w, homeworks w, parent_child w).

(** A Supabase reply [{ data, error }]. *)
Definition Reply (A : Type) : Type := (JsError.t + A)%type.

Definition reply_error {A} (r : Reply A) : option JsError.t :=
  match r with inl e => Some e | inr _ => None end.

(** Every store call goes through [store_call]: it takes the next entry of
    the failure plan, runs the query unless a failure is injected, and
    logs the call with its outcome. *)
Definition store_call {A} (c : Call) (query : World -> Reply A * World)
  (w : World) : Reply A * World :=
  match faults w with
  | Some e :: plan => (inl e, logged c (Some e) (with_faults plan w))
  | None :: plan =>
      let (r, w') := query (with_faults plan w) in
      (r, logged c (reply_error r) w')
  | [] =>
      let (r, w') := query w in
      (r, logged c (reply_error r) w')
  end.

(** What a filter means for a row: for [OrUsernameEmail] this is what
    PostgREST makes of the text when both names are plain
    ([postgrest_or_plain]). *)
Definition user_matches (f : UserFilter) (u : User.t) : bool :=
  match f with
  | OrUsernameEmail n e =>
      String.eqb (User.username u) n || String.eqb (User.email u) e
  | EqUsername n => String.eqb (User.username u) n
  end.

Definition homework_matches (f : HomeworkFilter) (h : Homework.t) : bool :=
  match f with
  | AllHomeworks => true
  | EqStudent sid => Z.eqb (Homework.student_id h) sid
  | InStudents sids => existsb (Z.eqb (Homework.student_id h)) sids
  end.

(** PostgREST's reply when [.maybeSingle()] / [.single()] meets the wrong
    number of rows. *)
Definition PGRST116 : JsError.t :=
  JsError.mk (Some "PGRST116")
             "JSON object requested, multiple (or no) rows returned".

(** [.maybeSingle()]: no row is [null], one row is that row, more rows are
    an error. *)
Definition maybeSingle {A} (rows : list A) : Reply (option A) :=
  match rows with
  | [] => inr None
  | [r] => inr (Some r)
  | _ :: _ :: _ => inl PGRST116
  end.

(** PostgREST's reading of the text of an [.or(...)] filter on [users]:
    the rows it selects from the table, or the error of a text it cannot
    read.  The rows are rows of the table; for plain names the text
    selects the rows whose username is the first name or whose email is the
    second.  Nothing is fixed for other names, which the handlers paste
    into the text unescaped. *)
Class Postgrest := {
  postgrest_or : string -> list User.t -> Reply (list User.t);
  postgrest_or_rows :
    forall text table rows,
      postgrest_or text table = inr rows -> incl rows table;
  postgrest_or_plain :
    forall u e table,
      plain u = true -> plain e = true ->
      postgrest_or (or_text u e) table
      = inr (filter (user_matches (OrUsernameEmail u e)) table)
}.

(** The rows of [users] a filter selects: [.eq] compares a column with a
    parameter, [.or] sends the text. *)
Definition user_rows {PG : Postgrest} (f : UserFilter) (table : list User.t)
  : Reply (list User.t) :=
  match f with
  | OrUsernameEmail u e => postgrest_or (or_text u e) table
  | EqUsername n => inr (filter (user_matches (EqUsername n)) table)
  end.

(** [supabase.from('users').select(cols)<filter>.maybeSingle()] *)
Definition select_user {PG : Postgrest} {A} (cols : User.t -> A)
  (f : UserFilter) : World -> Reply (option A) * World :=
  store_call (SelectUser f)
    (fun w => (match user_rows f (users w) with
               | inl e => inl e
               | inr rows => maybeSingle (map cols rows)
               end, w)).

(** Postgres' unique_violation. *)
Definition unique_violation (constraint : string) : JsError.t :=
  JsError.mk (Some "23505")
    ("duplicate key value violates unique constraint " ++ constraint).

(** Modelled from the spec: the schema of [users] is not part of the
    source; the spec's data model has exactly one identity per username
    and per email, enforced by the store, and ids chosen by the store. *)
Definition users_unique (username email : string) (us : list User.t) : bool :=
  negb (existsb (fun u => String.eqb (User.username u) username
                          || String.eqb (User.email u) email) us).

(** [supabase.from('users').insert({...}).select().single()] *)
Definition insert_user (username email password_hash role : string)
  (is_verified : bool) : World -> Reply User.t * World :=
  store_call (InsertUser username email)
    (fun w =>
       if users_unique username email (users w) then
         let row := User.mk (next_user_id w) username email password_hash
                            role is_verified in
         (inr row, with_users (users w ++ [row]) (next_user_id w + 1) w)
       else (inl (unique_violation "users_key"), w)).

(** Modelled from the spec: [created_at] is not written by the handler; the
    spec's record carries a creation time, taken here from the store's
    clock at insertion. *)
Definition insert_homework (student_id : Z) (student_name title content
  status : string) : World -> Reply unit * World :=
  store_call (InsertHomework student_id title)
    (fun w =>
       let row := Homework.mk student_id student_name title content status
                              (clock w) in
       (inr tt, with_homeworks (homeworks w ++ [row]) w)).

(** [.order('created_at', { ascending: false })]: newest first. *)
Fixpoint place (h : Homework.t) (sorted : list Homework.t) : list Homework.t :=
  match sorted with
  | [] => [h]
  | x :: rest =>
      if Homework.created_at x <? Homework.created_at h
      then h :: x :: rest
      else x :: place h rest
  end.

Definition order_desc (rows : list Homework.t) : list Homework.t :=
  fold_right place [] rows.

(** [supabase.from('homeworks').select('*').order(...)<filter>] *)
Definition select_homeworks (f : HomeworkFilter)
  : World -> Reply (list Homework.t) * World :=
  store_call (SelectHomeworks f)
    (fun w => (inr (order_desc (filter (homework_matches f) (homeworks w))), w)).

(** [supabase.from('parent_child').select('child_id').eq('parent_id', p)] *)
Definition select_parent_child (p : Z)
  : World -> Reply (list ParentChild.t) * World :=
  store_call (SelectParentChild p)
    (fun w =>
       (inr (filter (fun r => Z.eqb (ParentChild.parent_id r) p)
                    (parent_child w)), w)).

Definition bound (p c : Z) (ps : list ParentChild.t) : bool :=
  existsb (fun r => Z.eqb (ParentChild.parent_id r) p
                    && Z.eqb (ParentChild.child_id r) c) ps.

(** [supabase.from('parent_child').insert({ parent_id, child_id })]; the
    pair is unique in the table (code 23505 on a second insert, as the
    handler's comment says). *)
Definition insert_parent_child (p c : Z) : World -> Reply unit * World :=
  store_call (InsertParentChild p c)
    (fun w =>
       if bound p c (parent_child w)
       then (inl (unique_violation "parent_child_key"), w)
       else (inr tt,
             with_parent_child (parent_child w ++ [ParentChild.mk p c]) w)).

(** ** External libraries: bcrypt and jsonwebtoken *)

(** [bcrypt.hash(password, rounds)] and [bcrypt.compare(password, hash)]
    on strings; the salt is left inside [bcrypt_hash]. *)
Class Bcrypt := {
  bcrypt_hash : string -> Z -> string;
  bcrypt_compare : string -> string -> bool;
  bcrypt_compare_hash :
    forall password rounds,
      bcrypt_compare password (bcrypt_hash password rounds) = true
}.

(** The object handed to [jwt.sign]. *)
Module Claims.
Record t := mk { userId : Z; username : string; role : string }.
End Claims.

(** The decoded token, stored in [req.user] by the gate. *)
Module Session.
Record t := mk {
  userId : Z;
  username : string;
  role : string;
  iat : Z;
  exp : Z
}.
End Session.

Definition session_of (c : Claims.t) (issued ttl : Z) : Session.t :=
  Session.mk (Claims.userId c) (Claims.username c) (Claims.role c)
             issued (issued + ttl).

(** [jwt_sign claims secret now expiresIn] and
    [jwt_verify token secret now]; times are in seconds.  A token is a
    non-empty string without blanks, and a token verifies under the key
    that signed it until its expiry. *)
Class Jwt := {
  jwt_sign : Claims.t -> string -> Z -> Z -> string;
  jwt_verify : string -> string -> Z -> option Session.t;
  jwt_sign_compact :
    forall c secret issued ttl,
      free_of " " (jwt_sign c secret issued ttl) = true
      /\ jwt_sign c secret issued ttl <> "";
  jwt_verify_sign :
    forall c secret issued ttl now,
      now < issued + ttl ->
      jwt_verify (jwt_sign c secret issued ttl) secret now
      = Some (session_of c issued ttl);
  jwt_verify_expired :
    forall c secret issued ttl now,
      issued + ttl <= now ->
      jwt_verify (jwt_sign c secret issued ttl) secret now = None
}.

(** ** Configuration *)

(** [process.env]: only [JWT_SECRET] is read by the core. *)
Record Env := mkEnv { env_JWT_SECRET : option string }.

(** [process.env.JWT_SECRET || 'default-secret-key'] *)
Definition JWT_SECRET (env : Env) : string :=
  js_or (env_JWT_SECRET env) "default-secret-key".

(** ['7d'], in seconds. *)
Definition JWT_EXPIRES_IN : Z := 7 * 24 * 60 * 60.

(** ** Responses *)

Module PublicUser.
Record t := mk { id : Z; username : string; role : string }.
End PublicUser.

Inductive Body :=
| ErrorBody (error : string)                                   (* { error } *)
| MessageBody (message : string)                               (* { message } *)
| SessionBody (message token : string) (user : PublicUser.t)   (* { message, token, user } *)
| RowsBody (rows : list Homework.t).                           (* [ row, ... ] *)

Record Response := json { status : Z; body : Body }.

(** The error kinds of the interface, as the routes emit them. *)
Definition MissingCredential : Response :=
  json 401 (ErrorBody "請先登入").
Definition InvalidOrExpiredCredential : Response :=
  json 403 (ErrorBody "Token 無效或過期，請重新登入").
Definition InvalidCredentials : Response :=
  json 401 (ErrorBody "帳號或密碼錯誤").
Definition DuplicateIdentity : Response :=
  json 409 (ErrorBody "帳號或 Email 已被註冊").
Definition DuplicateRelationship : Response :=
  json 409 (ErrorBody "您已經綁定過此學生了").
Definition TargetNotFound : Response :=
  json 404 (ErrorBody "找不到該帳號").
Definition InvalidTargetRole : Response :=
  json 400 (ErrorBody "該帳號不是學生身分，無法綁定").
Definition UnauthorizedRole_submit : Response :=
  json 403 (ErrorBody "只有學生可以提交功課").
Definition UnauthorizedRole_bind : Response :=
  json 403 (ErrorBody "只有家長可以使用此功能").

(** [StoreError] is any response with status 500. *)
Definition is_StoreError (r : Response) : bool := status r =? 500.

Definition is_success (r : Response) : bool :=
  (200 <=? status r) && (status r <? 300).

(** ** The handler monad: state passing with [throw] *)

Definition M (A : Type) : Type := World -> (JsError.t + A) * World.

Definition ret {A} (a : A) : M A := fun w => (inr a, w).

Definition bind {A B} (m : M A) (k : A -> M B) : M B :=
  fun w =>
    match m w with
    | (inl e, w') => (inl e, w')
    | (inr a, w') => k a w'
    end.

Definition throw {A} (e : JsError.t) : M A := fun w => (inl e, w).

(** [await] of a Supabase query: the reply is a value, never a throw. *)
Definition await {A} (q : World -> Reply A * World) : M (Reply A) :=
  fun w => let (r, w') := q w in (inr r, w').

(** The current time in seconds, as [jwt.sign] and [jwt.verify] read it. *)
Definition now : M Z := fun w => (inr (clock w), w).

(** [try { body } catch (error) { res.status(...).json(...) }] *)
Definition try_catch (body : M Response) (handler : JsError.t -> Response)
  (w : World) : Response * World :=
  match body w with
  | (inl error, w') => (handler error, w')
  | (inr r, w') => (r, w')
  end.

Declare Scope handler_scope.
Delimit Scope handler_scope with handler.
Notation "x <- m ;; k" := (bind m (fun x => k))
  (at level 100, m at next level, right associativity) : handler_scope.
Local Open Scope handler_scope.

(** ** Request bodies *)

Module Register.
Record t := mk {
  username : JsField;
  email : JsField;
  password : JsField;
  role : JsField
}.
End Register.

Module Login.
Record t := mk { username : JsField; password : JsField }.
End Login.

(** The body of a submission may carry any field; besides [title] and
    [content] the owner and status columns are kept to follow what
    becomes of them. *)
Module Submit.
Record t := mk {
  title : JsField;
  content : JsField;
  student_id : option Z;
  student_name : JsField;
  status : JsField
}.
End Submit.

Module Bind.
Record t := mk { childUsername : JsField }.
End Bind.

Section Server.

Context {B : Bcrypt} {J : Jwt} {PG : Postgrest}.
Variable env : Env.

(** [bcrypt.compare] rejects when the password is missing. *)
Definition compare (password : JsField) (hash : string) : M bool :=
  match password with
  | Some p => ret (bcrypt_compare p hash)
  | None => throw (JsError.mk None "data and hash arguments required")
  end.

(** [jwt.sign({ userId, username, role }, JWT_SECRET, { expiresIn })] *)
Definition sign (u : User.t) : M string :=
  t <- now ;;
  ret (jwt_sign (Claims.mk (User.id u) (User.username u) (User.role u))
                (JWT_SECRET env) t JWT_EXPIRES_IN).

Definition public (u : User.t) : PublicUser.t :=
  PublicUser.mk (User.id u) (User.username u) (User.role u).

(** *** Middleware *)

(** [authHeader && authHeader.split(' ')[1]] *)
Definition bearer (authorization : JsField) : JsField :=
  match authorization with
  | None => None
  | Some header =>
      if String.eqb header "" then Some "" else nth_error (split " " header) 1
  end.

Definition authenticateToken (authorization : JsField)
  (next : Session.t -> World -> Response * World)
  (w : World) : Response * World :=
  match truthy (bearer authorization) with
  | None => (json 401 (ErrorBody "請先登入"), w)
  | Some token =>
      match jwt_verify token (JWT_SECRET env) (clock w) with
      | None => (json 403 (ErrorBody "Token 無效或過期，請重新登入"), w)
      | Some user => next user w
      end
  end.

(** *** POST /api/register *)

Definition post_register (body : Register.t) : World -> Response * World :=
  try_catch
    (match truthy (Register.username body), truthy (Register.email body),
           truthy (Register.password body) with
     | Some username, Some email, Some password =>
         (* only [data] is read from the reply of the duplicate check *)
         existing <- await (select_user User.id
                              (OrUsernameEmail username email)) ;;
         match existing with
         | inr (Some existingUser) =>
             ret (json 409 (ErrorBody "帳號或 Email 已被註冊"))
         | _ =>
             let passwordHash := bcrypt_hash password 10 in
             inserted <- await (insert_user username email passwordHash
                                  (js_or (Register.role body) "student")
                                  true) ;;
             match inserted with
             | inl insertError => throw insertError
             | inr newUser =>
                 token <- sign newUser ;;
                 ret (json 201 (SessionBody "註冊成功" token (public newUser)))
             end
         end
     | _, _, _ => ret (json 400 (ErrorBody "請填寫完整資料"))
     end)
    (fun error => json 500 (ErrorBody "伺服器錯誤")).

(** *** POST /api/login *)

Definition post_login (body : Login.t) : World -> Response * World :=
  try_catch
    (let username := interpolate (Login.username body) in
     found <- await (select_user (fun u => u)
                       (OrUsernameEmail username username)) ;;
     match found with
     | inl error => ret (json 500 (ErrorBody "資料庫錯誤"))
     | inr None => ret (json 401 (ErrorBody "帳號或密碼錯誤"))
     | inr (Some user) =>
         ok <- compare (Login.password body) (User.password_hash user) ;;
         if negb ok then ret (json 401 (ErrorBody "帳號或密碼錯誤"))
         else
           token <- sign user ;;
           ret (json 200 (SessionBody "登入成功" token (public user)))
     end)
    (fun error => json 500 (ErrorBody "伺服器錯誤")).

(** *** POST /api/homework *)

Definition post_homework (user : Session.t) (body : Submit.t)
  : World -> Response * World :=
  try_catch
    (if negb (String.eqb (Session.role user) "student") then
       ret (json 403 (ErrorBody "只有學生可以提交功課"))
     else
       match truthy (Submit.title body), truthy (Submit.content body) with
       | Some title, Some content =>
           inserted <- await (insert_homework (Session.userId user)
                                (Session.username user) title content
                                "pending") ;;
           match inserted with
           | inl error => throw error
           | inr _ => ret (json 200 (MessageBody "功課提交成功！"))
           end
       | _, _ => ret (json 400 (ErrorBody "標題與內容不能為空"))
       end)
    (fun error => json 500 (ErrorBody ("提交失敗: " ++ JsError.message error))).

(** *** GET /api/homework *)

(** The role branch: either an early response or the filter put on the
    default query (which is [AllHomeworks], newest first). *)
Definition scope_query (user : Session.t) : M (Response + HomeworkFilter) :=
  let userId := Session.userId user in
  let role := Session.role user in
  let query := AllHomeworks in
  if String.eqb role "student" then ret (inr (EqStudent userId))
  else if String.eqb role "teacher" then ret (inr query)
  else if String.eqb role "parent" then
    found <- await (select_parent_child userId) ;;
    match found with
    | inl relError => throw relError
    | inr [] => ret (inl (json 200 (RowsBody [])))
    | inr relations =>
        let childIds := map ParentChild.child_id relations in
        ret (inr (InStudents childIds))
    end
  else ret (inr query).

Definition get_homework (user : Session.t) : World -> Response * World :=
  try_catch
    (scoped <- scope_query user ;;
     match scoped with
     | inl early => ret early
     | inr query =>
         found <- await (select_homeworks query) ;;
         match found with
         | inl error => throw error
         | inr homeworks => ret (json 200 (RowsBody homeworks))
         end
     end)
    (fun error => json 500 (ErrorBody "無法取得資料")).

(** *** POST /api/bind-child *)

Definition post_bind_child (user : Session.t) (body : Bind.t)
  : World -> Response * World :=
  try_catch
    (if negb (String.eqb (Session.role user) "parent") then
       ret (json 403 (ErrorBody "只有家長可以使用此功能"))
     else
       match truthy (Bind.childUsername body) with
       | None => ret (json 400 (ErrorBody "請輸入學生帳號"))
       | Some childUsername =>
           found <- await (select_user (fun u => (User.id u, User.role u))
                             (EqUsername childUsername)) ;;
           match found with
           | inl findError => throw findError
           | inr None => ret (json 404 (ErrorBody "找不到該帳號"))
           | inr (Some child) =>
               if negb (String.eqb (snd child) "student") then
                 ret (json 400 (ErrorBody "該帳號不是學生身分，無法綁定"))
               else
                 inserted <- await (insert_parent_child
                                      (Session.userId user) (fst child)) ;;
                 match inserted with
                 | inl bindError =>
                     if code_is bindError "23505" then
                       ret (json 409 (ErrorBody "您已經綁定過此學生了"))
                     else throw bindError
                 | inr _ =>
                     ret (json 200 (MessageBody
                                      ("成功綁定學生：" ++ childUsername)))
                 end
           end
       end)
    (fun error => json 500 (ErrorBody "綁定失敗，請稍後再試")).

(** *** Routes *)

Inductive Request :=
| PostRegister (body : Register.t)
| PostLogin (body : Login.t)
| PostHomework (authorization : JsField) (body : Submit.t)
| GetHomework (authorization : JsField)
| PostBindChild (authorization : JsField) (body : Bind.t).

Definition serve (r : Request) : World -> Response * World :=
  match r with
  | PostRegister body => post_register body
  | PostLogin body => post_login body
  | PostHomework authorization body =>
      authenticateToken authorization (fun user => post_homework user body)
  | GetHomework authorization =>
      authenticateToken authorization get_homework
  | PostBindChild authorization body =>
      authenticateToken authorization (fun user => post_bind_child user body)
  end.

(** The states the server can be in: between requests the environment may
    move the clock and choose which store calls will fail. *)
Inductive reachable : World -> Prop :=
| reachable_initial : reachable initial_world
| reachable_environment :
    forall w t plan,
      reachable w -> reachable (with_clock t (with_faults plan w))
| reachable_request :
    forall w r, reachable w -> reachable (snd (serve r w)).

End Server.

(** ** A concrete bcrypt and jsonwebtoken

    The interfaces above are inhabited: a transparent "hash" and a token
    format that carries its key.  They give the handlers something to run
    on; nothing below depends on their being secure. *)

Module Plain.

Definition hash (password : string) (rounds : Z) : string :=
  "$2b$" ++ password.

Definition verify (password digest : string) : bool :=
  String.eqb digest ("$2b$" ++ password).

Definition bit (b : bool) : ascii := if b then "1"%char else "0"%char.

Definition unbit (c : ascii) : option bool :=
  if Ascii.eqb c "1" then Some true
  else if Ascii.eqb c "0" then Some false
  else None.

(** A field is written character by character, each as ["x"] and its
    eight bits, and closed by ["."]. *)
Definition pack_char (c : ascii) (k : string) : string :=
  match c with
  | Ascii b0 b1 b2 b3 b4 b5 b6 b7 =>
      String "x" (String (bit b0) (String (bit b1) (String (bit b2)
        (String (bit b3) (String (bit b4) (String (bit b5)
          (String (bit b6) (String (bit b7) k))))))))
  end.

Fixpoint pack (s k : string) : string :=
  match s with
  | EmptyString => String "." k
  | String c rest => pack_char c (pack rest k)
  end.

Definition bits8 (a0 a1 a2 a3 a4 a5 a6 a7 : ascii) : option ascii :=
  match unbit a0, unbit a1, unbit a2, unbit a3,
        unbit a4, unbit a5, unbit a6, unbit a7 with
  | Some b0, Some b1, Some b2, Some b3, Some b4, Some b5, Some b6, Some b7 =>
      Some (Ascii b0 b1 b2 b3 b4 b5 b6 b7)
  | _, _, _, _, _, _, _, _ => None
  end.

Fixpoint unpack (t : string) : option (string * string) :=
  match t with
  | EmptyString => None
  | String m rest =>
      if Ascii.eqb m "." then Some (EmptyString, rest)
      else
        match rest with
        | String a0 (String a1 (String a2 (String a3 (String a4
            (String a5 (String a6 (String a7 rest'))))))) =>
            match bits8 a0 a1 a2 a3 a4 a5 a6 a7, unpack rest' with
            | Some c, Some (s, k) => Some (String c s, k)
            | _, _ => None
            end
        | _ => None
        end
  end.

Fixpoint pos_text (p : positive) : string :=
  match p with
  | xH => EmptyString
  | xO q => String "0" (pos_text q)
  | xI q => String "1" (pos_text q)
  end.

Fixpoint text_pos (s : string) : option positive :=
  match s with
  | EmptyString => Some xH
  | String c rest =>
      match unbit c, text_pos rest with
      | Some true, Some q => Some (xI q)
      | Some false, Some q => Some (xO q)
      | _, _ => None
      end
  end.

Definition Z_text (z : Z) : string :=
  match z with
  | Z0 => "z"
  | Zpos p => String "p" (pos_text p)
  | Zneg p => String "n" (pos_text p)
  end.

Definition text_Z (s : string) : option Z :=
  match s with
  | String k rest =>
      if Ascii.eqb k "z" then
        match rest with EmptyString => Some 0 | _ => None end
      else if Ascii.eqb k "p" then option_map Zpos (text_pos rest)
      else if Ascii.eqb k "n" then option_map Zneg (text_pos rest)
      else None
  | EmptyString => None
  end.

(** A reader of the [.or] text that knows the one shape the handlers
    build with plain names and refuses every other text. *)
Fixpoint strip (prefix s : string) : option string :=
  match prefix, s with
  | EmptyString, _ => Some s
  | String a p, String b t => if Ascii.eqb a b then strip p t else None
  | String _ _, EmptyString => None
  end.

Fixpoint until_comma (s : string) : option (string * string) :=
  match s with
  | EmptyString => None
  | String c t =>
      if Ascii.eqb c "," then Some (EmptyString, t)
      else match until_comma t with
           | Some (a, b) => Some (String c a, b)
           | None => None
           end
  end.

Definition read_or (text : string) : option (string * string) :=
  match strip "username.eq." text with
  | Some rest =>
      match until_comma rest with
      | Some (u, rest') =>
          match strip "email.eq." rest' with
          | Some e => Some (u, e)
          | None => None
          end
      | None => None
      end
  | None => None
  end.

Definition PGRST100 : JsError.t :=
  JsError.mk (Some "PGRST100") "failed to parse logic tree".

Definition or_filter (text : string) (table : list User.t)
  : Reply (list User.t) :=
  match read_or text with
  | Some (u, e) =>
      if plain u && plain e
      then inr (filter (user_matches (OrUsernameEmail u e)) table)
      else inl PGRST100
  | None => inl PGRST100
  end.

Definition sign (c : Claims.t) (secret : string) (issued ttl : Z) : string :=
  pack secret
    (pack (Z_text (Claims.userId c))
       (pack (Claims.username c)
          (pack (Claims.role c)
             (pack (Z_text issued)
                (pack (Z_text (issued + ttl)) EmptyString))))).

Definition field_Z (t : string) : option (Z * string) :=
  match unpack t with
  | Some (s, k) =>
      match text_Z s with Some z => Some (z, k) | None => None end
  | None => None
  end.

Definition verify_token (token secret : string) (now : Z)
  : option Session.t :=
  match unpack token with
  | Some (key, t1) =>
    match field_Z t1 with
    | Some (uid, t2) =>
      match unpack t2 with
      | Some (name, t3) =>
        match unpack t3 with
        | Some (role, t4) =>
          match field_Z t4 with
          | Some (issued, t5) =>
            match field_Z t5 with
            | Some (expiry, rest) =>
                if String.eqb rest "" && String.eqb key secret
                   && (now <? expiry)
                then Some (Session.mk uid name role issued expiry)
                else None
            | None => None
            end
          | None => None
          end
        | None => None
        end
      | None => None
      end
    | None => None
    end
  | None => None
  end.

End Plain.

(** The concrete libraries meet their interfaces. *)

Lemma unbit_bit (b : bool) : Plain.unbit (Plain.bit b) = Some b.
Proof. destruct b; reflexivity. Qed.

Lemma unpack_pack (s k : string) : Plain.unpack (Plain.pack s k) = Some (s, k).
Proof.
  induction s as [|c s IH]; [reflexivity|].
  destruct c as [b0 b1 b2 b3 b4 b5 b6 b7].
  cbn [Plain.pack Plain.pack_char Plain.unpack].
  replace (Ascii.eqb "x" ".") with false by reflexivity.
  unfold Plain.bits8. rewrite !unbit_bit, IH. reflexivity.
Qed.

Lemma text_pos_text (p : positive) : Plain.text_pos (Plain.pos_text p) = Some p.
Proof.
  induction p as [q IH|q IH|]; cbn [Plain.pos_text Plain.text_pos];
    [change (Plain.unbit "1") with (Some true)
    |change (Plain.unbit "0") with (Some false)|];
    try rewrite IH; reflexivity.
Qed.

Lemma text_Z_text (z : Z) : Plain.text_Z (Plain.Z_text z) = Some z.
Proof.
  destruct z as [|p|p]; [reflexivity| |];
    cbn [Plain.Z_text Plain.text_Z];
    [replace (Ascii.eqb "p" "z") with false by reflexivity;
     replace (Ascii.eqb "p" "p") with true by reflexivity
    |replace (Ascii.eqb "n" "z") with false by reflexivity;
     replace (Ascii.eqb "n" "p") with false by reflexivity;
     replace (Ascii.eqb "n" "n") with true by reflexivity];
    rewrite text_pos_text; reflexivity.
Qed.

Lemma field_Z_pack (z : Z) (k : string) :
  Plain.field_Z (Plain.pack (Plain.Z_text z) k) = Some (z, k).
Proof. unfold Plain.field_Z. rewrite unpack_pack, text_Z_text. reflexivity. Qed.

Lemma free_of_pack (s k : string) :
  free_of " " (Plain.pack s k) = free_of " " k.
Proof.
  induction s as [|c s IH]; [reflexivity|].
  destruct c as [b0 b1 b2 b3 b4 b5 b6 b7].
  cbn [Plain.pack Plain.pack_char]. rewrite <- IH.
  destruct b0, b1, b2, b3, b4, b5, b6, b7; reflexivity.
Qed.

Lemma pack_not_empty (s k : string) : Plain.pack s k <> "".
Proof. destruct s as [|[b0 b1 b2 b3 b4 b5 b6 b7] s]; discriminate. Qed.

Lemma plain_unsealed (c : Claims.t) (secret : string) (issued ttl now : Z) :
  Plain.verify_token (Plain.sign c secret issued ttl) secret now
  = if now <? issued + ttl then Some (session_of c issued ttl) else None.
Proof.
  unfold Plain.verify_token, Plain.sign.
  rewrite unpack_pack, field_Z_pack, !unpack_pack, !field_Z_pack.
  rewrite !String.eqb_refl. reflexivity.
Qed.

Lemma strip_append (p s : string) : Plain.strip p (p ++ s) = Some s.
Proof.
  induction p as [|c p IH]; cbn [Plain.strip append].
  - destruct s; reflexivity.
  - rewrite Ascii.eqb_refl. exact IH.
Qed.

Lemma until_comma_append (u r : string) :
  free_of "," u = true ->
  Plain.until_comma (u ++ String "," r) = Some (u, r).
Proof.
  induction u as [|c u IH]; cbn [free_of Plain.until_comma append].
  - intros _. reflexivity.
  - intros H. apply andb_prop in H. destruct H as [Hc Hu].
    apply negb_true_iff in Hc. rewrite Hc, (IH Hu). reflexivity.
Qed.

Lemma plain_char_not_comma (c : ascii) :
  plain_char c = true -> Ascii.eqb c "," = false.
Proof.
  destruct c as [[] [] [] [] [] [] [] []]; vm_compute; congruence.
Qed.

Lemma plain_chars_free (s : string) :
  plain_chars s = true -> free_of "," s = true.
Proof.
  induction s as [|c s IH]; cbn [plain_chars free_of]; [reflexivity|].
  intros H. apply andb_prop in H. destruct H as [Hc Hs].
  rewrite (plain_char_not_comma c Hc), (IH Hs). reflexivity.
Qed.

Lemma plain_free (s : string) : plain s = true -> free_of "," s = true.
Proof.
  unfold plain. intros H. apply andb_prop in H.
  apply plain_chars_free, H.
Qed.

Lemma read_or_text (u e : string) :
  plain u = true -> Plain.read_or (or_text u e) = Some (u, e).
Proof.
  intros Hu. unfold Plain.read_or, or_text.
  rewrite strip_append.
  change (",email.eq." ++ e) with (String "," ("email.eq." ++ e)).
  rewrite (until_comma_append u _ (plain_free u Hu)), strip_append.
  reflexivity.
Qed.

#[export] Instance plain_postgrest : Postgrest.
Proof.
  refine {| postgrest_or := Plain.or_filter |}.
  - intros text table rows. unfold Plain.or_filter.
    destruct (Plain.read_or text) as [[u e]|]; [|discriminate].
    destruct (plain u && plain e); [|discriminate].
    intros H. injection H as <-. apply incl_filter.
  - intros u e table Hu He. unfold Plain.or_filter.
    rewrite (read_or_text u e Hu), Hu, He. reflexivity.
Defined.

#[export] Instance plain_bcrypt : Bcrypt := {|
  bcrypt_hash := Plain.hash;
  bcrypt_compare := Plain.verify;
  bcrypt_compare_hash := fun password _ => String.eqb_refl _
|}.

#[export] Instance plain_jwt : Jwt.
Proof.
  refine {| jwt_sign := Plain.sign; jwt_verify := Plain.verify_token |}.
  - intros c secret issued ttl. split.
    + unfold Plain.sign. rewrite !free_of_pack. reflexivity.
    + apply pack_not_empty.
  - intros c secret issued ttl now H. rewrite plain_unsealed.
    apply Z.ltb_lt in H. rewrite H. reflexivity.
  - intros c secret issued ttl now H. rewrite plain_unsealed.
    apply Z.ltb_ge in H. rewrite H. reflexivity.
Defined.

(** ** Sample data *)

Module Sample.

Definition env : Env := mkEnv None.

Definition alice : User.t :=
  User.mk 1 "alice" "alice@school.tw" (Plain.hash "rabbit-hole" 10)
          "student" true.
Definition bob : User.t :=
  User.mk 2 "bob" "bob@school.tw" (Plain.hash "builder" 10) "student" true.
Definition carol : User.t :=
  User.mk 3 "carol" "carol@home.tw" (Plain.hash "christmas" 10) "parent" true.
Definition ted : User.t :=
  User.mk 4 "ted" "ted@school.tw" (Plain.hash "chalk" 10) "teacher" true.

Definition essay : Homework.t :=
  Homework.mk 1 "alice" "Essay" "My summer" "pending" 100.
Definition sums : Homework.t :=
  Homework.mk 2 "bob" "Sums" "1 + 1 = 2" "pending" 200.
Definition drawing : Homework.t :=
  Homework.mk 1 "alice" "Drawing" "A rabbit" "pending" 300.

(** Two students with homework, a parent bound to both, a teacher. *)
Definition school : World :=
  mkWorld [alice; bob; carol; ted] [essay; sums; drawing]
          [ParentChild.mk 3 1; ParentChild.mk 3 2] 5 1000 [] [].

Definition session (u : User.t) : Session.t :=
  Session.mk (User.id u) (User.username u) (User.role u)
             900 (900 + JWT_EXPIRES_IN).

(** A registration with a role that is none of the three, and the
    session its token decodes to. *)
Definition mallory_form : Register.t :=
  Register.mk (Some "mallory") (Some "mallory@example.org")
              (Some "mallory-pw") (Some "admin").

Definition mallory : Session.t :=
  Session.mk 5 "mallory" "admin" 1000 (1000 + JWT_EXPIRES_IN).

(** The store refuses the next call. *)
Definition outage : JsError.t :=
  JsError.mk (Some "08006")
    "connection to server at 10.0.3.7, port 5432 failed".

(** An identity whose email is the bare word [frank]. *)
Definition erin : User.t :=
  User.mk 1 "erin" "frank" (Plain.hash "erin-pw" 10) "student" true.

Definition office : World := mkWorld [erin] [] [] 2 1000 [] [].

Definition frank : Register.t :=
  Register.mk (Some "frank") (Some "frank@school.tw") (Some "frank-pw") None.

(** A student and a parent register, and the parent binds the student. *)
Definition family : World :=
  snd (serve env
         (PostBindChild
            (Some ("Bearer " ++ jwt_sign (Claims.mk 2 "carol" "parent")
                                         "default-secret-key" 0 JWT_EXPIRES_IN))
            (Bind.mk (Some "alice")))
         (snd (serve env
                 (PostRegister
                    (Register.mk (Some "carol") (Some "carol@home.tw")
                                 (Some "christmas") (Some "parent")))
                 (snd (serve env
                         (PostRegister
                            (Register.mk (Some "alice") (Some "alice@school.tw")
                                         (Some "rabbit-hole") None))
                         initial_world))))).

End Sample.

(** ** Vocabulary of the properties *)

(** The identities whose [username] or [email] is [name]: the rows the
    login lookup selects when [name] is plain ([lookup_plain]). *)
Definition identities_named (name : string) (w : World) : list User.t :=
  filter (user_matches (OrUsernameEmail name name)) (users w).

(** The order of a listing: creation time, descending. *)
Definition newest_first (a b : Homework.t) : Prop :=
  Homework.created_at b <= Homework.created_at a.

(** The submitters a guardian is bound to, as the relationship table has
    them. *)
Definition children_of (p : Z) (w : World) : list Z :=
  map ParentChild.child_id
      (filter (fun r => Z.eqb (ParentChild.parent_id r) p) (parent_child w)).

Definition owned_by (ids : list Z) (h : Homework.t) : bool :=
  existsb (Z.eqb (Homework.student_id h)) ids.

(** The Relationship invariant: the child end of every row is the id of an
    identity, and every identity with that id is a [student]. *)
Definition child_is_student (w : World) : Prop :=
  forall r, In r (parent_child w) ->
    (exists u, In u (users w) /\ User.id u = ParentChild.child_id r)
    /\ (forall u, In u (users w) -> User.id u = ParentChild.child_id r ->
                  User.role u = "student").

(** Ids handed out by the store are below its counter, and no two
    identities share one. *)
Definition ids_fresh (w : World) : Prop :=
  forall u, In u (users w) -> User.id u < next_user_id w.

Definition ids_unique (w : World) : Prop :=
  forall u v, In u (users w) -> In v (users w) -> User.id u = User.id v -> u = v.

Definition well_formed (w : World) : Prop :=
  ids_fresh w /\ ids_unique w /\ child_is_student w.

(** The tables a relationship depends on are the same in both worlds. *)
Definition same_identities (w w' : World) : Prop :=
  users w' = users w
  /\ parent_child w' = parent_child w
  /\ next_user_id w' = next_user_id w.

(** The [token] member of a response. *)
Definition token_of (r : Response) : string :=
  match body r with
  | SessionBody _ token _ => token
  | _ => ""
  end.

(** The store calls a handler issues on [w], with their errors: what it
    adds to the log. *)
Definition calls_of (run : World -> Response * World) (w : World)
  : list (Call * option JsError.t) :=
  skipn (List.length (log w)) (log (snd (run w))).

(** The row a registration writes: the id is the store's, the role is
    [role || 'student'], the password is hashed. *)
Definition registered_row {B : Bcrypt} (body : Register.t) (w : World)
  (name mail password : string) : User.t :=
  User.mk (next_user_id w) name mail (bcrypt_hash password 10)
          (js_or (Register.role body) "student") true.

Definition claims_of (pu : PublicUser.t) : Claims.t :=
  Claims.mk (PublicUser.id pu) (PublicUser.username pu) (PublicUser.role pu).

(** A header with no token: absent, without a blank, ending in the blank,
    or with a second blank right after the first. *)
Inductive tokenless : JsField -> Prop :=
| tokenless_absent : tokenless None
| tokenless_word : forall h, free_of " " h = true -> tokenless (Some h)
| tokenless_end :
    forall scheme, free_of " " scheme = true -> tokenless (Some (scheme ++ " "))
| tokenless_blank :
    forall scheme rest,
      free_of " " scheme = true ->
      tokenless (Some (scheme ++ " " ++ " " ++ rest)).

(** Users, homework, relationships, the id counter and the clock are the
    same in both worlds; the failure plan and the log may differ. *)
Definition same_data (w w' : World) : Prop :=
  users w' = users w
  /\ homeworks w' = homeworks w
  /\ parent_child w' = parent_child w
  /\ next_user_id w' = next_user_id w
  /\ clock w' = clock w.

(** A homework row as the submission route writes it. *)
Definition pending_homework (h : Homework.t) : Prop :=
  Homework.status h = "pending"
  /\ Homework.title h <> ""
  /\ Homework.content h <> "".

(** An identity as the registration route writes it. *)
Definition hashed_identity {B : Bcrypt} (u : User.t) : Prop :=
  User.is_verified u = true
  /\ User.username u <> ""
  /\ User.email u <> ""
  /\ User.role u <> ""
  /\ exists password,
       password <> "" /\ User.password_hash u = bcrypt_hash password 10.

(** * Properties *)

(** ** The store *)

Lemma store_call_ok {A} (c : Call) (q : World -> Reply A * World) (w : World) :
  faults w = [] ->
  store_call c q w = (fst (q w), logged c (reply_error (fst (q w))) (snd (q w))).
Proof.
  intros H. unfold store_call. rewrite H. destruct (q w); reflexivity.
Qed.

Lemma store_call_fails {A} (c : Call) (q : World -> Reply A * World)
  (w : World) (e : JsError.t) (plan : list (option JsError.t)) :
  faults w = Some e :: plan ->
  store_call c q w = (inl e, logged c (Some e) (with_faults plan w)).
Proof. intros H. unfold store_call. rewrite H. reflexivity. Qed.

Lemma calls_after {A} (l x : list A) : skipn (List.length l) (l ++ x) = x.
Proof. induction l as [|a l IH]; [reflexivity | exact IH]. Qed.

Lemma calls_none {A} (l : list A) : skipn (List.length l) l = [].
Proof. induction l as [|a l IH]; [reflexivity | exact IH]. Qed.

(** Comparisons of two string literals are evaluated. *)
Ltac literals :=
  repeat match goal with
    | |- context [String.eqb ?a ?b] =>
        let v := eval vm_compute in (String.eqb a b) in
        match v with
        | true => change (String.eqb a b) with true
        | false => change (String.eqb a b) with false
        end
    end;
  cbn [negb andb orb].

(** ** Record submission *)

Section Submission.

Variable user : Session.t.
Variable w : World.

Lemma submit_other_role (body : Submit.t) :
  Session.role user <> "student" ->
  post_homework user body w = (UnauthorizedRole_submit, w).
Proof.
  intros Hrole. unfold post_homework, try_catch.
  destruct (String.eqb_spec (Session.role user) "student") as [E|_];
    [contradiction | reflexivity].
Qed.

(** C7: a caller whose role is not [student] gets [UnauthorizedRole] and
    the world is left as it was: no store call is issued (the log is
    unchanged) and no table is written. *)
Theorem submit_requires_student (body : Submit.t) :
  Session.role user <> "student" ->
  fst (post_homework user body w) = UnauthorizedRole_submit
  /\ snd (post_homework user body w) = w
  /\ calls_of (post_homework user body) w = [].
Proof.
  intros Hrole. unfold calls_of.
  rewrite (submit_other_role body Hrole). cbn [fst snd].
  repeat split. apply calls_none.
Qed.

(** What a submission that reaches the store does. *)
Lemma submit_student (body : Submit.t) (title content : string) :
  Session.role user = "student" ->
  truthy (Submit.title body) = Some title ->
  truthy (Submit.content body) = Some content ->
  post_homework user body w
  = let reply := insert_homework (Session.userId user) (Session.username user)
                                 title content "pending" w in
    (match fst reply with
     | inl error => json 500 (ErrorBody ("提交失敗: " ++ JsError.message error))
     | inr _ => json 200 (MessageBody "功課提交成功！")
     end, snd reply).
Proof.
  intros Hrole Ht Hc. unfold post_homework, try_catch, bind, await.
  rewrite Hrole, Ht, Hc. literals.
  destruct (insert_homework _ _ _ _ _ w) as [[e|u] w']; reflexivity.
Qed.

(** C6: when a submission succeeds, exactly one row was appended, its owner
    id and owner name are those of the session, its status is [pending];
    the owner and status fields of the request body play no part. *)
Theorem submitted_row_owned_by_session (body : Submit.t) :
  is_success (fst (post_homework user body w)) = true ->
  (exists title content,
      truthy (Submit.title body) = Some title
      /\ truthy (Submit.content body) = Some content
      /\ homeworks (snd (post_homework user body w))
         = (homeworks w
              ++ [Homework.mk (Session.userId user) (Session.username user)
                              title content "pending" (clock w)])%list)
  /\ (forall sid sname st,
         post_homework user
           (Submit.mk (Submit.title body) (Submit.content body) sid sname st) w
         = post_homework user body w).
Proof.
  intros Hok. split; [|reflexivity].
  destruct (String.eqb_spec (Session.role user) "student") as [Hrole|Hrole].
  2:{ rewrite (submit_other_role body Hrole) in Hok. discriminate. }
  destruct (truthy (Submit.title body)) as [title|] eqn:Ht.
  2:{ unfold post_homework, try_catch in Hok. rewrite Hrole, Ht in Hok.
      discriminate. }
  destruct (truthy (Submit.content body)) as [content|] eqn:Hc.
  2:{ unfold post_homework, try_catch in Hok. rewrite Hrole, Ht, Hc in Hok.
      discriminate. }
  exists title, content. split; [reflexivity|]. split; [reflexivity|].
  rewrite (submit_student body title content Hrole Ht Hc) in *.
  cbv zeta in *. unfold insert_homework, store_call in *.
  destruct (faults w) as [|[e|] plan]; cbn in *; try reflexivity.
  discriminate.
Qed.

End Submission.

Lemma submit_requires_student_witness :
  Session.role (Sample.session Sample.ted) <> "student"
  /\ fst (post_homework (Sample.session Sample.ted)
            (Submit.mk (Some "Essay") (Some "My summer") None None None)
            Sample.school)
     = UnauthorizedRole_submit
  /\ snd (post_homework (Sample.session Sample.ted)
            (Submit.mk (Some "Essay") (Some "My summer") None None None)
            Sample.school)
     = Sample.school
  /\ calls_of (post_homework (Sample.session Sample.ted)
                 (Submit.mk (Some "Essay") (Some "My summer") None None None))
              Sample.school
     = [].
Proof.
  split; [discriminate|].
  apply (submit_requires_student (Sample.session Sample.ted) Sample.school).
  discriminate.
Defined.

Lemma submitted_row_owned_by_session_witness :
  homeworks (snd (post_homework (Sample.session Sample.alice)
                    (Submit.mk (Some "Poem") (Some "Roses are red")
                               (Some 2) (Some "bob") (Some "graded"))
                    Sample.school))
  = [Sample.essay; Sample.sums; Sample.drawing;
     Homework.mk 1 "alice" "Poem" "Roses are red" "pending" 1000].
Proof.
  destruct (submitted_row_owned_by_session (Sample.session Sample.alice)
              Sample.school
              (Submit.mk (Some "Poem") (Some "Roses are red")
                         (Some 2) (Some "bob") (Some "graded"))
              eq_refl)
    as [[title [content [Ht [Hc Hrows]]]] _].
  injection Ht as <-. injection Hc as <-. exact Hrows.
Defined.

(** ** Listing *)

Lemma place_perm (h : Homework.t) (l : list Homework.t) :
  Permutation (place h l) (h :: l).
Proof.
  induction l as [|x l IH]; cbn [place]; [apply Permutation_refl|].
  destruct (Homework.created_at x <? Homework.created_at h).
  - apply Permutation_refl.
  - eapply perm_trans; [apply perm_skip, IH | apply perm_swap].
Qed.

Lemma order_desc_perm (l : list Homework.t) : Permutation (order_desc l) l.
Proof.
  induction l as [|h l IH]; cbn [order_desc fold_right]; [constructor|].
  eapply perm_trans; [apply place_perm | apply perm_skip, IH].
Qed.

Lemma place_sorted (h : Homework.t) (l : list Homework.t) :
  StronglySorted newest_first l -> StronglySorted newest_first (place h l).
Proof.
  induction 1 as [|x l Hl IH Hx]; cbn [place].
  - repeat constructor.
  - destruct (Z.ltb_spec (Homework.created_at x) (Homework.created_at h))
      as [Hlt|Hge].
    + constructor; [constructor; assumption|].
      constructor; [unfold newest_first; lia|].
      eapply Forall_impl; [|exact Hx].
      unfold newest_first. intros y Hy. lia.
    + constructor; [exact IH|].
      eapply Permutation_Forall;
        [apply Permutation_sym, place_perm|].
      constructor; [exact Hge | exact Hx].
Qed.

Lemma order_desc_sorted (l : list Homework.t) :
  StronglySorted newest_first (order_desc l).
Proof.
  induction l as [|h l IH]; cbn [order_desc fold_right]; [constructor|].
  apply place_sorted, IH.
Qed.

Section Listing.

Variable user : Session.t.
Variable w : World.
Hypothesis store_up : faults w = [].

(** The query that ends the handler, on a store that answers. *)
Lemma listing_query (f : HomeworkFilter) (w0 : World) :
  faults w0 = [] ->
  try_catch
    (found <- await (select_homeworks f) ;;
     match found with
     | inl error => throw error
     | inr rows => ret (json 200 (RowsBody rows))
     end)%handler
    (fun _ => json 500 (ErrorBody "無法取得資料")) w0
  = (json 200 (RowsBody (order_desc (filter (homework_matches f) (homeworks w0)))),
     logged (SelectHomeworks f) None w0).
Proof.
  intros H. unfold try_catch, bind, await, select_homeworks.
  rewrite store_call_ok by exact H. reflexivity.
Qed.

Lemma listing_student :
  Session.role user = "student" ->
  get_homework user w
  = (json 200 (RowsBody (order_desc
       (filter (homework_matches (EqStudent (Session.userId user)))
               (homeworks w)))),
     logged (SelectHomeworks (EqStudent (Session.userId user))) None w).
Proof.
  intros Hrole. rewrite <- (listing_query _ w store_up).
  unfold get_homework, scope_query, try_catch, bind, ret.
  rewrite Hrole. literals. reflexivity.
Qed.

(** Any role other than [student] and [parent] keeps the default query. *)
Lemma listing_unfiltered :
  Session.role user <> "student" ->
  Session.role user <> "parent" ->
  get_homework user w
  = (json 200 (RowsBody (order_desc (homeworks w))),
     logged (SelectHomeworks AllHomeworks) None w).
Proof.
  intros Hs Hp.
  assert (E : filter (homework_matches AllHomeworks) (homeworks w) = homeworks w).
  { induction (homeworks w) as [|h l IH]; cbn; [reflexivity|]. now rewrite IH. }
  rewrite <- E, <- (listing_query _ w store_up).
  unfold get_homework, scope_query, try_catch, bind, ret.
  destruct (String.eqb_spec (Session.role user) "student"); [contradiction|].
  destruct (String.eqb_spec (Session.role user) "parent"); [contradiction|].
  destruct (String.eqb (Session.role user) "teacher"); reflexivity.
Qed.

Lemma listing_parent :
  Session.role user = "parent" ->
  get_homework user w
  = match children_of (Session.userId user) w with
    | [] => (json 200 (RowsBody []),
             logged (SelectParentChild (Session.userId user)) None w)
    | childIds =>
        (json 200 (RowsBody (order_desc
           (filter (homework_matches (InStudents childIds)) (homeworks w)))),
         logged (SelectHomeworks (InStudents childIds)) None
           (logged (SelectParentChild (Session.userId user)) None w))
    end.
Proof.
  intros Hrole. unfold children_of.
  unfold get_homework, scope_query, try_catch, bind, ret, await,
    select_parent_child.
  rewrite Hrole. literals.
  rewrite store_call_ok by exact store_up. cbn [fst snd reply_error].
  destruct (filter _ (parent_child w)) as [|r rs]; [reflexivity|].
  cbn [map].
  unfold select_homeworks. rewrite store_call_ok by exact store_up.
  reflexivity.
Qed.

(** C2: on a store that answers, the listing of a [student] is exactly
    their own rows, that of a [teacher] is every row, that of a [parent]
    bound to nobody is empty and is answered after the relationship lookup
    alone (no homework query is logged), and that of a [parent] bound to
    children is exactly the rows of those children; every listing is
    ordered newest first.  For children [A] and [B] this is the union of
    the rows of [A] and of [B]. *)
Theorem listing_is_role_scoped :
  (Session.role user = "student" ->
     exists rows,
       fst (get_homework user w) = json 200 (RowsBody rows)
       /\ StronglySorted newest_first rows
       /\ Permutation rows
            (filter (fun h => Z.eqb (Homework.student_id h) (Session.userId user))
                    (homeworks w)))
  /\ (Session.role user = "teacher" ->
     exists rows,
       fst (get_homework user w) = json 200 (RowsBody rows)
       /\ StronglySorted newest_first rows
       /\ Permutation rows (homeworks w))
  /\ (Session.role user = "parent" ->
      children_of (Session.userId user) w = [] ->
       fst (get_homework user w) = json 200 (RowsBody [])
       /\ log (snd (get_homework user w))
          = (log w ++ [(SelectParentChild (Session.userId user), None)])%list
       /\ tables (snd (get_homework user w)) = tables w)
  /\ (Session.role user = "parent" ->
      children_of (Session.userId user) w <> [] ->
     exists rows,
       fst (get_homework user w) = json 200 (RowsBody rows)
       /\ StronglySorted newest_first rows
       /\ Permutation rows
            (filter (owned_by (children_of (Session.userId user) w))
                    (homeworks w)))
  /\ (forall A B,
      Session.role user = "parent" ->
      children_of (Session.userId user) w = [A; B] ->
     exists rows,
       fst (get_homework user w) = json 200 (RowsBody rows)
       /\ StronglySorted newest_first rows
       /\ (forall h, In h rows <->
                     In h (homeworks w)
                     /\ (Homework.student_id h = A \/ Homework.student_id h = B))).
Proof.
  split; [|split; [|split; [|split]]].
  - intros Hrole. rewrite (listing_student Hrole). cbn [fst].
    eexists; split; [reflexivity|].
    split; [apply order_desc_sorted | apply order_desc_perm].
  - intros Hrole. rewrite listing_unfiltered by (rewrite Hrole; discriminate).
    cbn [fst]. eexists; split; [reflexivity|].
    split; [apply order_desc_sorted | apply order_desc_perm].
  - intros Hrole Hc. rewrite (listing_parent Hrole), Hc.
    repeat split; reflexivity.
  - intros Hrole Hc. rewrite (listing_parent Hrole).
    destruct (children_of (Session.userId user) w) as [|c cs];
      [contradiction|].
    cbn [fst]. eexists; split; [reflexivity|].
    split; [apply order_desc_sorted | apply order_desc_perm].
  - intros A B Hrole Hc. rewrite (listing_parent Hrole), Hc. cbn [fst].
    eexists; split; [reflexivity|].
    split; [apply order_desc_sorted|].
    intros h. split.
    + intros Hin.
      apply (Permutation_in _ (order_desc_perm _)) in Hin.
      apply filter_In in Hin. destruct Hin as [Hin Hm]. split; [exact Hin|].
      cbn in Hm. rewrite orb_false_r in Hm. apply orb_prop in Hm.
      destruct Hm as [Hm|Hm]; apply Z.eqb_eq in Hm; auto.
    + intros [Hin Hown].
      apply (Permutation_in _ (Permutation_sym (order_desc_perm _))).
      apply filter_In. split; [exact Hin|]. cbn.
      destruct Hown as [E|E]; apply Z.eqb_eq in E; rewrite E;
        [reflexivity | apply orb_true_r].
Qed.

End Listing.

Lemma listing_is_role_scoped_witness :
  faults Sample.school = []
  /\ exists rows,
       fst (get_homework (Sample.session Sample.carol) Sample.school)
       = json 200 (RowsBody rows)
       /\ StronglySorted newest_first rows
       /\ (forall h, In h rows <->
                     In h (homeworks Sample.school)
                     /\ (Homework.student_id h = 1 \/ Homework.student_id h = 2)).
Proof.
  split; [reflexivity|].
  apply (listing_is_role_scoped (Sample.session Sample.carol) Sample.school
           eq_refl); reflexivity.
Defined.

(** C1: a session whose role is none of [student], [teacher], [parent]
    is answered with status 200 and every homework row, the listing of a
    teacher; evaluated on the sample school for an identity that
    registered itself with the role [admin] and lists with the token the
    registration returned. *)
Theorem unknown_role_lists_everything :
  status (fst (serve Sample.env (PostRegister Sample.mallory_form)
                 Sample.school))
  = 201
  /\ fst (serve Sample.env
            (GetHomework
               (Some ("Bearer "
                      ++ token_of (fst (serve Sample.env
                                          (PostRegister Sample.mallory_form)
                                          Sample.school)))))
            (snd (serve Sample.env (PostRegister Sample.mallory_form)
                    Sample.school)))
     = json 200 (RowsBody [Sample.drawing; Sample.sums; Sample.essay])
  /\ fst (get_homework Sample.mallory Sample.school)
     = fst (get_homework (Sample.session Sample.ted) Sample.school).
Proof. repeat split. Qed.

(** ** Login *)

Section LoginFlow.

Context {B : Bcrypt} {J : Jwt} {PG : Postgrest}.
Variable env : Env.

(** For a plain name the login lookup selects the identities whose
    username or email is the name. *)
Lemma lookup_plain (name : string) (w : World) :
  plain name = true ->
  user_rows (OrUsernameEmail name name) (users w)
  = inr (identities_named name w).
Proof.
  intros H. cbn [user_rows]. rewrite (postgrest_or_plain _ _ _ H H).
  reflexivity.
Qed.

(** A login whose plain name selects exactly one identity, on a store
    that answers. *)
Lemma login_found (body : Login.t) (w : World) (identity : User.t)
  (password : string) :
  faults w = [] ->
  plain (interpolate (Login.username body)) = true ->
  identities_named (interpolate (Login.username body)) w = [identity] ->
  Login.password body = Some password ->
  post_login env body w
  = (if bcrypt_compare password (User.password_hash identity)
     then json 200
            (SessionBody "登入成功"
               (jwt_sign (Claims.mk (User.id identity) (User.username identity)
                                    (User.role identity))
                         (JWT_SECRET env) (clock w) JWT_EXPIRES_IN)
               (public identity))
     else InvalidCredentials,
     logged (SelectUser (OrUsernameEmail (interpolate (Login.username body))
                                         (interpolate (Login.username body))))
            None w).
Proof.
  intros Hup Hplain Hone Hpw.
  unfold post_login, try_catch, bind, await, select_user.
  rewrite store_call_ok by exact Hup. cbn [fst snd].
  rewrite (lookup_plain _ w Hplain), Hone, Hpw.
  cbn [map maybeSingle reply_error compare ret].
  destruct (bcrypt_compare password (User.password_hash identity));
    reflexivity.
Qed.

Lemma login_not_found (body : Login.t) (w : World) :
  faults w = [] ->
  plain (interpolate (Login.username body)) = true ->
  identities_named (interpolate (Login.username body)) w = [] ->
  post_login env body w
  = (InvalidCredentials,
     logged (SelectUser (OrUsernameEmail (interpolate (Login.username body))
                                         (interpolate (Login.username body))))
            None w).
Proof.
  intros Hup Hplain Hnone.
  unfold post_login, try_catch, bind, await, select_user.
  rewrite store_call_ok by exact Hup. cbn [fst snd].
  rewrite (lookup_plain _ w Hplain), Hnone. reflexivity.
Qed.

End LoginFlow.

(** C3: the login route does tell an existing identity from an unknown
    name.  A request without a password is answered 500 for the stored
    name [alice] and 401 for the unknown name [zoe]; and once [frank] has
    registered beside the identity whose email is [frank], a wrong
    password for [frank] is answered 500 while the same wrong password for
    an unknown name is answered 401. *)
Theorem login_tells_existing_from_unknown :
  fst (post_login Sample.env (Login.mk (Some "alice") None) Sample.school)
  = json 500 (ErrorBody "伺服器錯誤")
  /\ fst (post_login Sample.env (Login.mk (Some "zoe") None) Sample.school)
     = InvalidCredentials
  /\ fst (post_login Sample.env (Login.mk (Some "frank") (Some "guess"))
            (snd (post_register Sample.env Sample.frank Sample.office)))
     = json 500 (ErrorBody "資料庫錯誤")
  /\ fst (post_login Sample.env (Login.mk (Some "zoe") (Some "guess"))
            (snd (post_register Sample.env Sample.frank Sample.office)))
     = InvalidCredentials.
Proof. repeat split. Qed.

(** ** The gate *)

Lemma split_free (sep : ascii) (s : string) :
  free_of sep s = true -> split sep s = [s].
Proof.
  induction s as [|c s IH]; cbn [free_of split]; [reflexivity|].
  intros H. apply andb_prop in H. destruct H as [Hc Hs].
  apply negb_true_iff in Hc. rewrite Hc, (IH Hs). reflexivity.
Qed.

Lemma bearer_token (token : string) :
  free_of " " token = true ->
  bearer (Some ("Bearer " ++ token)) = Some token.
Proof.
  intros H. unfold bearer.
  change (String.eqb ("Bearer " ++ token) "") with false.
  cbn [append split]. rewrite (split_free _ _ H).
  reflexivity.
Qed.

(** Store calls leave the clock alone. *)
Lemma store_call_clock {A} (c : Call) (q : World -> Reply A * World) (w : World) :
  (forall w0, clock (snd (q w0)) = clock w0) ->
  clock (snd (store_call c q w)) = clock w.
Proof.
  intros Hq. unfold store_call.
  destruct (faults w) as [|[e|] plan]; [| reflexivity |].
  - specialize (Hq w). destruct (q w). exact Hq.
  - specialize (Hq (with_faults plan w)). destruct (q _). exact Hq.
Qed.

Lemma select_user_clock {PG : Postgrest} {A} (cols : User.t -> A) (f : UserFilter) (w : World) :
  clock (snd (select_user cols f w)) = clock w.
Proof. apply store_call_clock. reflexivity. Qed.

Lemma insert_user_clock (n e h r : string) (v : bool) (w : World) :
  clock (snd (insert_user n e h r v w)) = clock w.
Proof.
  apply store_call_clock. intros w0.
  destruct (users_unique n e (users w0)); reflexivity.
Qed.

Section Keys.

Context {B : Bcrypt} {J : Jwt} {PG : Postgrest}.
Variable env : Env.

Lemma register_token (body : Register.t) (w : World) (st : Z)
  (msg token : string) (pu : PublicUser.t) :
  fst (post_register env body w) = json st (SessionBody msg token pu) ->
  token = jwt_sign (claims_of pu) (JWT_SECRET env) (clock w) JWT_EXPIRES_IN.
Proof.
  unfold post_register, try_catch, bind, await.
  destruct (truthy (Register.username body)) as [n|]; [|discriminate].
  destruct (truthy (Register.email body)) as [e|]; [|discriminate].
  destruct (truthy (Register.password body)) as [p|]; [|discriminate].
  pose proof (select_user_clock User.id (OrUsernameEmail n e) w) as C1.
  destruct (select_user User.id (OrUsernameEmail n e) w) as [r1 w1].
  cbn [snd] in C1.
  set (r := js_or (Register.role body) "student").
  pose proof (insert_user_clock n e (bcrypt_hash p 10) r true w1) as C2.
  destruct r1 as [e1|[x|]]; [| discriminate |];
    (destruct (insert_user n e (bcrypt_hash p 10) r true w1) as [[e2|u] w2];
     cbn [snd] in C2; [discriminate|];
     unfold sign, now, bind, ret; cbn [fst];
     intros E; injection E as _ _ <- <-;
     rewrite C2, C1; reflexivity).
Qed.

Lemma login_token (body : Login.t) (w : World) (st : Z)
  (msg token : string) (pu : PublicUser.t) :
  fst (post_login env body w) = json st (SessionBody msg token pu) ->
  token = jwt_sign (claims_of pu) (JWT_SECRET env) (clock w) JWT_EXPIRES_IN.
Proof.
  unfold post_login, try_catch, bind, await.
  set (f := OrUsernameEmail _ _).
  pose proof (select_user_clock (fun u => u) f w) as C1.
  destruct (select_user (fun u => u) f w) as [r1 w1]. cbn [snd] in C1.
  destruct r1 as [e1|[u|]]; [discriminate| |discriminate].
  unfold compare. destruct (Login.password body) as [p|]; [|discriminate].
  unfold ret. destruct (bcrypt_compare p (User.password_hash u));
    [|discriminate].
  cbn [negb]. unfold sign, now, bind, ret. cbn [fst].
  intros E; injection E as _ _ <- <-. rewrite C1. reflexivity.
Qed.

Lemma gate_verifies (header : JsField) (token : string)
  (next : Session.t -> World -> Response * World) (w : World) :
  truthy (bearer header) = Some token ->
  authenticateToken env header next w
  = match jwt_verify token (JWT_SECRET env) (clock w) with
    | Some user => next user w
    | None => (InvalidOrExpiredCredential, w)
    end.
Proof. intros H. unfold authenticateToken. rewrite H. reflexivity. Qed.

Lemma gate_accepts_own_key (c : Claims.t) (issued ttl : Z)
  (next : Session.t -> World -> Response * World) (w : World) :
  clock w < issued + ttl ->
  authenticateToken env
    (Some ("Bearer " ++ jwt_sign c (JWT_SECRET env) issued ttl)) next w
  = next (session_of c issued ttl) w.
Proof.
  intros Hfresh.
  destruct (jwt_sign_compact c (JWT_SECRET env) issued ttl) as [Hfree Hne].
  rewrite (gate_verifies _ (jwt_sign c (JWT_SECRET env) issued ttl)).
  - rewrite (jwt_verify_sign _ _ _ _ _ Hfresh). reflexivity.
  - rewrite (bearer_token _ Hfree). unfold truthy.
    destruct (String.eqb_spec (jwt_sign c (JWT_SECRET env) issued ttl) "");
      [contradiction|reflexivity].
Qed.

(** Without a bearer token the gate answers [MissingCredential]; a token
    past its expiry is answered [InvalidOrExpiredCredential]. *)
Lemma gate_missing_credential
  (next : Session.t -> World -> Response * World) (w : World) :
  authenticateToken env None next w = (MissingCredential, w)
  /\ authenticateToken env (Some "Bearer") next w = (MissingCredential, w).
Proof. split; reflexivity. Qed.

Lemma gate_rejects_expired (c : Claims.t) (issued ttl : Z)
  (next : Session.t -> World -> Response * World) (w : World) :
  issued + ttl <= clock w ->
  authenticateToken env
    (Some ("Bearer " ++ jwt_sign c (JWT_SECRET env) issued ttl)) next w
  = (InvalidOrExpiredCredential, w).
Proof.
  intros Hlate.
  destruct (jwt_sign_compact c (JWT_SECRET env) issued ttl) as [Hfree Hne].
  rewrite (gate_verifies _ (jwt_sign c (JWT_SECRET env) issued ttl)).
  - rewrite (jwt_verify_expired _ _ _ _ _ Hlate). reflexivity.
  - rewrite (bearer_token _ Hfree). unfold truthy.
    destruct (String.eqb_spec (jwt_sign c (JWT_SECRET env) issued ttl) "");
      [contradiction|reflexivity].
Qed.

(** C10: the token of a registration and of a login is signed with
    [JWT_SECRET], the gate verifies with [JWT_SECRET] and lets through what
    that key signed; without [JWT_SECRET] in the environment the key is
    the literal [default-secret-key], and a token anyone signs with that
    literal, for any claims, passes the gate until it expires. *)
Theorem signing_key_is_shared_and_defaulted :
  (forall body w st msg token pu,
      fst (post_register env body w) = json st (SessionBody msg token pu) ->
      token = jwt_sign (claims_of pu) (JWT_SECRET env) (clock w) JWT_EXPIRES_IN)
  /\ (forall body w st msg token pu,
      fst (post_login env body w) = json st (SessionBody msg token pu) ->
      token = jwt_sign (claims_of pu) (JWT_SECRET env) (clock w) JWT_EXPIRES_IN)
  /\ (forall header token next w,
      truthy (bearer header) = Some token ->
      authenticateToken env header next w
      = match jwt_verify token (JWT_SECRET env) (clock w) with
        | Some user => next user w
        | None => (InvalidOrExpiredCredential, w)
        end)
  /\ (forall c issued ttl next w,
      clock w < issued + ttl ->
      authenticateToken env
        (Some ("Bearer " ++ jwt_sign c (JWT_SECRET env) issued ttl)) next w
      = next (session_of c issued ttl) w)
  /\ (env_JWT_SECRET env = None ->
      JWT_SECRET env = "default-secret-key"
      /\ forall c issued ttl next w,
          clock w < issued + ttl ->
          authenticateToken env
            (Some ("Bearer " ++ jwt_sign c "default-secret-key" issued ttl))
            next w
          = next (session_of c issued ttl) w).
Proof.
  split; [exact register_token|].
  split; [exact login_token|].
  split; [exact gate_verifies|].
  split; [exact gate_accepts_own_key|].
  intros Hunset.
  assert (K : JWT_SECRET env = "default-secret-key")
    by (unfold JWT_SECRET; rewrite Hunset; reflexivity).
  split; [exact K|].
  intros c issued ttl next w Hfresh. rewrite <- K.
  apply gate_accepts_own_key, Hfresh.
Qed.

End Keys.

(** With no [JWT_SECRET] configured, a token made outside the server with
    the literal key and a teacher's claims opens the listing. *)
Lemma signing_key_is_shared_and_defaulted_witness :
  env_JWT_SECRET Sample.env = None
  /\ fst (serve Sample.env
            (GetHomework
               (Some ("Bearer " ++ jwt_sign (Claims.mk 99 "nobody" "teacher")
                                            "default-secret-key" 990 60)))
            Sample.school)
     = json 200 (RowsBody [Sample.drawing; Sample.sums; Sample.essay]).
Proof.
  split; [reflexivity|].
  destruct (signing_key_is_shared_and_defaulted Sample.env)
    as (_ & _ & _ & _ & Hforge).
  destruct (Hforge eq_refl) as [_ Hgate].
  unfold serve. rewrite Hgate by reflexivity. reflexivity.
Defined.

(** ** Registration, then login *)

(** C8: a registration that the duplicate check lets through can leave the
    new identity unable to log in.  [frank] and [frank@school.tw] are no
    stored username and no stored email, so the registration is answered
    201; the login with the same username and password is then answered
    500, because the login lookup also selects the identity whose email is
    [frank] and [.maybeSingle()] refuses two rows.  The password is the
    right one: the login with the email is answered 200. *)
Theorem registered_user_is_locked_out :
  users_unique "frank" "frank@school.tw" (users Sample.office) = true
  /\ status (fst (post_register Sample.env Sample.frank Sample.office)) = 201
  /\ fst (post_login Sample.env (Login.mk (Some "frank") (Some "frank-pw"))
            (snd (post_register Sample.env Sample.frank Sample.office)))
     = json 500 (ErrorBody "資料庫錯誤")
  /\ status
       (fst (post_login Sample.env
               (Login.mk (Some "frank@school.tw") (Some "frank-pw"))
               (snd (post_register Sample.env Sample.frank Sample.office))))
     = 200.
Proof. repeat split. Qed.

(** ** Relationships *)

Lemma same_identities_refl (w : World) : same_identities w w.
Proof. repeat split. Qed.

Lemma same_identities_trans (a b c : World) :
  same_identities a b -> same_identities b c -> same_identities a c.
Proof.
  intros (U1 & P1 & N1) (U2 & P2 & N2).
  repeat split; congruence.
Qed.

Lemma well_formed_same (w w' : World) :
  same_identities w w' -> well_formed w -> well_formed w'.
Proof.
  intros (U & P & N) (F & Q & C).
  unfold well_formed, ids_fresh, ids_unique, child_is_student.
  rewrite U, P, N. auto.
Qed.

Lemma well_formed_new_user (w w' : World) (row : User.t) :
  well_formed w ->
  users w' = (users w ++ [row])%list ->
  User.id row = next_user_id w ->
  next_user_id w' = next_user_id w + 1 ->
  parent_child w' = parent_child w ->
  well_formed w'.
Proof.
  intros (F & Q & C) U I N P.
  unfold well_formed, ids_fresh, ids_unique, child_is_student.
  rewrite U, N, P. repeat split.
  - intros u Hu. apply in_app_or in Hu. destruct Hu as [Hu|[<-|[]]].
    + specialize (F u Hu). lia.
    + lia.
  - intros u v Hu Hv E.
    apply in_app_or in Hu. apply in_app_or in Hv.
    destruct Hu as [Hu|[<-|[]]], Hv as [Hv|[<-|[]]].
    + apply Q; assumption.
    + specialize (F u Hu). lia.
    + specialize (F v Hv). lia.
    + reflexivity.
  - destruct (C r H) as [[u [Hu E]] _]. exists u.
    split; [apply in_or_app; left; exact Hu | exact E].
  - intros u Hu E. destruct (C r H) as [[v [Hv Ev]] S].
    apply in_app_or in Hu. destruct Hu as [Hu|[<-|[]]].
    + apply S; assumption.
    + specialize (F v Hv). lia.
Qed.

Lemma well_formed_new_pair (w w' : World) (p : Z) (u : User.t) :
  well_formed w ->
  In u (users w) ->
  User.role u = "student" ->
  users w' = users w ->
  next_user_id w' = next_user_id w ->
  parent_child w' = (parent_child w ++ [ParentChild.mk p (User.id u)])%list ->
  well_formed w'.
Proof.
  intros (F & Q & C) Hu S U N P.
  unfold well_formed, ids_fresh, ids_unique, child_is_student.
  rewrite U, N, P. repeat split; try assumption.
  - apply in_app_or in H. destruct H as [H|[<-|[]]].
    + apply (C r H).
    + exists u. split; [exact Hu | reflexivity].
  - intros v Hv E. apply in_app_or in H. destruct H as [H|[<-|[]]].
    + apply (C r H); assumption.
    + cbn [ParentChild.child_id] in E.
      rewrite (Q v u Hv Hu E). exact S.
Qed.

(** What each store call may do to the identities and relationships. *)
Lemma store_call_same {A} (c : Call) (q : World -> Reply A * World) (w : World) :
  (forall w0, same_identities w0 (snd (q w0))) ->
  same_identities w (snd (store_call c q w)).
Proof.
  intros Hq. unfold store_call.
  destruct (faults w) as [|[e|] plan].
  - specialize (Hq w). destruct (q w). exact Hq.
  - repeat split.
  - specialize (Hq (with_faults plan w)). destruct (q _). exact Hq.
Qed.

Lemma select_user_same {PG : Postgrest} {A} (cols : User.t -> A) (f : UserFilter) (w : World) :
  same_identities w (snd (select_user cols f w)).
Proof. apply store_call_same. intros w0. repeat split. Qed.

Lemma insert_homework_same (i : Z) (n t c s : string) (w : World) :
  same_identities w (snd (insert_homework i n t c s w)).
Proof. apply store_call_same. intros w0. repeat split. Qed.

Lemma select_homeworks_same (f : HomeworkFilter) (w : World) :
  same_identities w (snd (select_homeworks f w)).
Proof. apply store_call_same. intros w0. repeat split. Qed.

Lemma select_parent_child_same (p : Z) (w : World) :
  same_identities w (snd (select_parent_child p w)).
Proof. apply store_call_same. intros w0. repeat split. Qed.

Lemma maybeSingle_some {A} (rows : list A) (x : A) :
  maybeSingle rows = inr (Some x) -> rows = [x].
Proof.
  destruct rows as [|a [|b rows]]; cbn [maybeSingle]; intros E;
    try discriminate.
  injection E as <-. reflexivity.
Qed.

(** A row a lookup returns is in the table. *)
(** The rows a filter selects are rows of the table. *)
Lemma user_rows_in {PG : Postgrest} (f : UserFilter) (table rows : list User.t) :
  user_rows f table = inr rows -> incl rows table.
Proof.
  destruct f as [u e|n]; cbn [user_rows].
  - apply postgrest_or_rows.
  - intros H. injection H as <-. apply incl_filter.
Qed.

Lemma select_user_found {PG : Postgrest} {A} (cols : User.t -> A)
  (f : UserFilter) (w : World) (x : A) :
  fst (select_user cols f w) = inr (Some x) ->
  exists u, In u (users w) /\ x = cols u
            /\ user_rows f (users w) = inr [u].
Proof.
  unfold select_user, store_call.
  assert (K : match user_rows f (users w) with
              | inl e => inl e
              | inr rows => maybeSingle (map cols rows)
              end = inr (Some x) ->
              exists u, In u (users w) /\ x = cols u
                        /\ user_rows f (users w) = inr [u]).
  { destruct (user_rows f (users w)) as [e|rows] eqn:R; [discriminate|].
    intros E. apply maybeSingle_some in E.
    destruct rows as [|u [|v rows]]; try discriminate.
    injection E as <-. exists u. split; [|split; reflexivity].
    apply (user_rows_in f _ _ R). left. reflexivity. }
  destruct (faults w) as [|[e|] plan]; cbn [fst]; try discriminate; exact K.
Qed.

Lemma insert_user_effect (n e h r : string) (v : bool) (w : World) :
  same_identities w (snd (insert_user n e h r v w))
  \/ (users (snd (insert_user n e h r v w))
      = (users w ++ [User.mk (next_user_id w) n e h r v])%list
      /\ next_user_id (snd (insert_user n e h r v w)) = next_user_id w + 1
      /\ parent_child (snd (insert_user n e h r v w)) = parent_child w).
Proof.
  unfold insert_user, store_call.
  destruct (faults w) as [|[x|] plan]; cbn [users with_faults next_user_id].
  - destruct (users_unique n e (users w));
      [right | left]; repeat split.
  - left. repeat split.
  - destruct (users_unique n e (users w));
      [right | left]; repeat split.
Qed.

Lemma insert_parent_child_effect (p c : Z) (w : World) :
  (same_identities w (snd (insert_parent_child p c w))
   /\ fst (insert_parent_child p c w) <> inr tt)
  \/ (fst (insert_parent_child p c w) = inr tt
      /\ users (snd (insert_parent_child p c w)) = users w
      /\ next_user_id (snd (insert_parent_child p c w)) = next_user_id w
      /\ parent_child (snd (insert_parent_child p c w))
         = (parent_child w ++ [ParentChild.mk p c])%list).
Proof.
  unfold insert_parent_child, store_call.
  destruct (faults w) as [|[x|] plan];
    cbn [parent_child with_faults].
  - destruct (bound p c (parent_child w)); [left | right]; repeat split;
      discriminate.
  - left. repeat split. discriminate.
  - destruct (bound p c (parent_child w)); [left | right]; repeat split;
      discriminate.
Qed.

Section Relationships.

Context {B : Bcrypt} {J : Jwt} {PG : Postgrest}.
Variable env : Env.

Lemma login_same (body : Login.t) (w : World) :
  same_identities w (snd (post_login env body w)).
Proof.
  unfold post_login, try_catch, bind, await.
  set (f := OrUsernameEmail _ _).
  pose proof (select_user_same (fun u => u) f w) as S.
  destruct (select_user (fun u => u) f w) as [[e|[u|]] w1];
    cbn [snd] in *; try exact S.
  unfold compare. destruct (Login.password body) as [p|]; [|exact S].
  unfold ret. destruct (bcrypt_compare p (User.password_hash u)); exact S.
Qed.

Lemma submit_same (user : Session.t) (body : Submit.t) (w : World) :
  same_identities w (snd (post_homework user body w)).
Proof.
  unfold post_homework, try_catch, bind, await.
  destruct (negb _); [apply same_identities_refl|].
  destruct (truthy (Submit.title body)) as [t|];
    [|apply same_identities_refl].
  destruct (truthy (Submit.content body)) as [c|];
    [|apply same_identities_refl].
  pose proof (insert_homework_same (Session.userId user)
                (Session.username user) t c "pending" w) as S.
  destruct (insert_homework _ _ _ _ _ w) as [[e|u] w1]; exact S.
Qed.

Lemma list_same (user : Session.t) (w : World) :
  same_identities w (snd (get_homework user w)).
Proof.
  assert (Q : forall f w0,
             same_identities w0
               (snd (try_catch
                  (found <- await (select_homeworks f) ;;
                   match found with
                   | inl error => throw error
                   | inr rows => ret (json 200 (RowsBody rows))
                   end)%handler
                  (fun _ => json 500 (ErrorBody "無法取得資料")) w0))).
  { intros f w0. unfold try_catch, bind, await.
    pose proof (select_homeworks_same f w0) as S.
    destruct (select_homeworks f w0) as [[e|rows] w1]; exact S. }
  unfold get_homework, scope_query.
  destruct (String.eqb (Session.role user) "student"); [apply Q|].
  destruct (String.eqb (Session.role user) "teacher"); [apply Q|].
  destruct (String.eqb (Session.role user) "parent"); [|apply Q].
  unfold try_catch, bind, await.
  pose proof (select_parent_child_same (Session.userId user) w) as S.
  destruct (select_parent_child (Session.userId user) w)
    as [[e|[|r rs]] w1]; cbn [snd] in S; try exact S.
  unfold ret.
  eapply same_identities_trans; [exact S|].
  specialize (Q (InStudents (map ParentChild.child_id (r :: rs))) w1).
  unfold try_catch, bind, await in Q. exact Q.
Qed.

Lemma register_effect (body : Register.t) (w : World) :
  same_identities w (snd (post_register env body w))
  \/ exists row,
       users (snd (post_register env body w)) = (users w ++ [row])%list
       /\ User.id row = next_user_id w
       /\ next_user_id (snd (post_register env body w)) = next_user_id w + 1
       /\ parent_child (snd (post_register env body w)) = parent_child w.
Proof.
  unfold post_register, try_catch, bind, await.
  destruct (truthy (Register.username body)) as [n|];
    [|left; apply same_identities_refl].
  destruct (truthy (Register.email body)) as [e|];
    [|left; apply same_identities_refl].
  destruct (truthy (Register.password body)) as [p|];
    [|left; apply same_identities_refl].
  pose proof (select_user_same User.id (OrUsernameEmail n e) w) as S.
  destruct (select_user User.id (OrUsernameEmail n e) w) as [r1 w1].
  cbn [snd] in S.
  set (r := js_or (Register.role body) "student").
  pose proof (insert_user_effect n e (bcrypt_hash p 10) r true w1) as I.
  destruct S as (U & P & N).
  destruct r1 as [e1|[x|]]; [| left; repeat split; assumption |];
    (destruct (insert_user n e (bcrypt_hash p 10) r true w1) as [r2 w2];
     cbn [snd] in I;
     assert (G : same_identities w w2
                 \/ exists row,
                      users w2 = (users w ++ [row])%list
                      /\ User.id row = next_user_id w
                      /\ next_user_id w2 = next_user_id w + 1
                      /\ parent_child w2 = parent_child w)
       by (destruct I as [(U2 & P2 & N2)|(U2 & N2 & P2)];
           [left; repeat split; congruence
           |right; eexists; rewrite U2, N2, P2, U, N, P;
            repeat split; reflexivity]);
     destruct r2 as [e2|u]; exact G).
Qed.

Lemma bind_effect (user : Session.t) (body : Bind.t) (w : World) :
  same_identities w (snd (post_bind_child user body w))
  \/ exists target,
       In target (users w)
       /\ User.role target = "student"
       /\ is_success (fst (post_bind_child user body w)) = true
       /\ users (snd (post_bind_child user body w)) = users w
       /\ next_user_id (snd (post_bind_child user body w)) = next_user_id w
       /\ parent_child (snd (post_bind_child user body w))
          = (parent_child w
               ++ [ParentChild.mk (Session.userId user) (User.id target)])%list.
Proof.
  unfold post_bind_child, try_catch, bind, await.
  destruct (negb _); [left; apply same_identities_refl|].
  destruct (truthy (Bind.childUsername body)) as [n|];
    [|left; apply same_identities_refl].
  set (cols := fun u : User.t => (User.id u, User.role u)).
  pose proof (select_user_same cols (EqUsername n) w) as S.
  pose proof (select_user_found cols (EqUsername n) w) as F.
  destruct (select_user cols (EqUsername n) w) as [[e|[child|]] w1];
    cbn [fst snd] in S, F; try (left; exact S).
  destruct (F child eq_refl) as [target [Hin [-> _]]]. clear F.
  unfold cols. cbn [fst snd].
  destruct (String.eqb_spec (User.role target) "student") as [Hrole|_];
    cbn [negb]; [|left; exact S].
  pose proof (insert_parent_child_effect (Session.userId user)
                (User.id target) w1) as I.
  destruct S as (U & P & N).
  destruct (insert_parent_child (Session.userId user) (User.id target) w1)
    as [[e|[]] w2]; cbn [fst snd] in I.
  - destruct I as [[(U2 & P2 & N2) _]|[E _]]; [|discriminate].
    left. destruct (code_is e "23505"); unfold ret, throw; cbn [snd];
      repeat split; congruence.
  - destruct I as [[_ Hne]|(_ & U2 & N2 & P2)]; [contradiction|].
    right. exists target. unfold ret. cbn [fst snd].
    rewrite U2, N2, P2, U, N, P. repeat split; assumption.
Qed.

Lemma gate_cases (header : JsField)
  (next : Session.t -> World -> Response * World) (w : World) :
  snd (authenticateToken env header next w) = w
  \/ exists user, authenticateToken env header next w = next user w.
Proof.
  unfold authenticateToken.
  destruct (truthy (bearer header)) as [token|]; [|left; reflexivity].
  destruct (jwt_verify token (JWT_SECRET env) (clock w)) as [user|];
    [right; exists user; reflexivity | left; reflexivity].
Qed.

Lemma serve_well_formed (r : Request) (w : World) :
  well_formed w -> well_formed (snd (serve env r w)).
Proof.
  intros W. destruct r as [body|body|header body|header|header body];
    cbn [serve].
  - destruct (register_effect body w) as [S|(row & U & I & N & P)].
    + exact (well_formed_same _ _ S W).
    + exact (well_formed_new_user _ _ row W U I N P).
  - exact (well_formed_same _ _ (login_same body w) W).
  - destruct (gate_cases header (fun user => post_homework user body) w)
      as [->|[user ->]]; [exact W|].
    exact (well_formed_same _ _ (submit_same user body w) W).
  - destruct (gate_cases header get_homework w) as [->|[user ->]];
      [exact W|].
    exact (well_formed_same _ _ (list_same user w) W).
  - destruct (gate_cases header (fun user => post_bind_child user body) w)
      as [->|[user ->]]; [exact W|].
    destruct (bind_effect user body w)
      as [S|(target & Hin & Hrole & _ & U & N & P)].
    + exact (well_formed_same _ _ S W).
    + exact (well_formed_new_pair _ _ _ target W Hin Hrole U N P).
Qed.

Lemma reachable_well_formed (w : World) :
  reachable env w -> well_formed w.
Proof.
  induction 1 as [|w t plan _ IH|w r _ IH].
  - split; [intros u [] | split; [intros u v [] | intros r []]].
  - exact (well_formed_same w _ (same_identities_refl w) IH).
  - apply serve_well_formed, IH.
Qed.

(** A binding whose target is found and is not a [student]. *)
Lemma bind_rejects_other_roles (user : Session.t) (body : Bind.t) (w : World)
  (name : string) (target : User.t) :
  Session.role user = "parent" ->
  truthy (Bind.childUsername body) = Some name ->
  faults w = [] ->
  filter (user_matches (EqUsername name)) (users w) = [target] ->
  User.role target <> "student" ->
  post_bind_child user body w
  = (InvalidTargetRole, logged (SelectUser (EqUsername name)) None w).
Proof.
  intros Hparent Hname Hup Hfound Hrole.
  unfold post_bind_child, try_catch, bind, await, select_user, user_rows.
  rewrite Hparent, Hname. literals.
  rewrite store_call_ok by exact Hup. cbn [fst snd].
  rewrite Hfound. cbn [map maybeSingle reply_error fst snd].
  apply String.eqb_neq in Hrole. rewrite Hrole. reflexivity.
Qed.

(** C9: a binding whose looked-up target is not a [student] answers
    [InvalidTargetRole] and issues no insert (the lookup is the only call
    logged, the tables are unchanged); a binding adds a relationship row
    only for a target that is a stored [student]; and in every state the
    server can reach, every relationship row ends in an identity whose role
    is [student]. *)
Theorem relationships_end_in_students :
  (forall user body w name target,
      Session.role user = "parent" ->
      truthy (Bind.childUsername body) = Some name ->
      faults w = [] ->
      filter (user_matches (EqUsername name)) (users w) = [target] ->
      User.role target <> "student" ->
      fst (post_bind_child user body w) = InvalidTargetRole
      /\ tables (snd (post_bind_child user body w)) = tables w
      /\ log (snd (post_bind_child user body w))
         = (log w ++ [(SelectUser (EqUsername name), None)])%list)
  /\ (forall user body w,
      parent_child (snd (post_bind_child user body w)) = parent_child w
      \/ exists target,
           In target (users w)
           /\ User.role target = "student"
           /\ parent_child (snd (post_bind_child user body w))
              = (parent_child w
                   ++ [ParentChild.mk (Session.userId user)
                                      (User.id target)])%list)
  /\ (forall w, reachable env w -> child_is_student w).
Proof.
  split; [|split].
  - intros user body w name target Hparent Hname Hup Hfound Hrole.
    rewrite (bind_rejects_other_roles user body w name target
               Hparent Hname Hup Hfound Hrole).
    repeat split.
  - intros user body w.
    destruct (bind_effect user body w)
      as [(_ & P & _)|(target & Hin & Hrole & _ & _ & _ & P)].
    + left. exact P.
    + right. exists target. repeat split; assumption.
  - intros w R. apply (reachable_well_formed w R).
Qed.

End Relationships.

Lemma relationships_end_in_students_witness :
  parent_child Sample.family = [ParentChild.mk 2 1]
  /\ child_is_student Sample.family
  /\ fst (post_bind_child (Sample.session Sample.carol)
            (Bind.mk (Some "ted")) Sample.school)
     = InvalidTargetRole.
Proof.
  destruct (relationships_end_in_students Sample.env)
    as (Hreject & _ & Hreach).
  split; [reflexivity|]. split.
  - apply Hreach. unfold Sample.family.
    repeat apply reachable_request. apply reachable_initial.
  - apply (Hreject (Sample.session Sample.carol) (Bind.mk (Some "ted"))
             Sample.school "ted" Sample.ted);
      try reflexivity.
    discriminate.
Defined.

(** ** Store failures and the response *)

Lemma store_call_log {A} (c : Call) (q : World -> Reply A * World) (w : World) :
  (forall w0, log (snd (q w0)) = log w0) ->
  log (snd (store_call c q w))
  = (log w ++ [(c, reply_error (fst (store_call c q w)))])%list.
Proof.
  intros Hq. unfold store_call.
  destruct (faults w) as [|[e|] plan]; [| reflexivity |].
  - specialize (Hq w). destruct (q w) as [r w1]. cbn in *.
    rewrite Hq. reflexivity.
  - specialize (Hq (with_faults plan w)). destruct (q _) as [r w1].
    cbn in *. rewrite Hq. reflexivity.
Qed.

Lemma select_user_log {PG : Postgrest} {A} (cols : User.t -> A) (f : UserFilter) (w : World) :
  log (snd (select_user cols f w))
  = (log w ++ [(SelectUser f, reply_error (fst (select_user cols f w)))])%list.
Proof. apply store_call_log. reflexivity. Qed.

Lemma insert_user_log (n e h r : string) (v : bool) (w : World) :
  log (snd (insert_user n e h r v w))
  = (log w ++ [(InsertUser n e,
                reply_error (fst (insert_user n e h r v w)))])%list.
Proof.
  apply store_call_log. intros w0.
  destruct (users_unique n e (users w0)); reflexivity.
Qed.

Lemma insert_homework_log (i : Z) (n t c s : string) (w : World) :
  log (snd (insert_homework i n t c s w))
  = (log w ++ [(InsertHomework i t,
                reply_error (fst (insert_homework i n t c s w)))])%list.
Proof. apply store_call_log. reflexivity. Qed.

Lemma select_homeworks_log (f : HomeworkFilter) (w : World) :
  log (snd (select_homeworks f w))
  = (log w ++ [(SelectHomeworks f,
                reply_error (fst (select_homeworks f w)))])%list.
Proof. apply store_call_log. reflexivity. Qed.

Lemma select_parent_child_log (p : Z) (w : World) :
  log (snd (select_parent_child p w))
  = (log w ++ [(SelectParentChild p,
                reply_error (fst (select_parent_child p w)))])%list.
Proof. apply store_call_log. reflexivity. Qed.

Lemma insert_parent_child_log (p c : Z) (w : World) :
  log (snd (insert_parent_child p c w))
  = (log w ++ [(InsertParentChild p c,
                reply_error (fst (insert_parent_child p c w)))])%list.
Proof.
  apply store_call_log. intros w0.
  destruct (bound p c (parent_child w0)); reflexivity.
Qed.

(** One failed call among the calls of a handler. *)
Ltac failed_call H :=
  cbn [fst snd reply_error In app] in H;
  repeat match type of H with
    | _ \/ _ => destruct H as [H|H]
    | False => destruct H
    | (_, _) = (_, _) => try discriminate H; injection H as ? ?; subst
    end.

Section Failures.

Context {B : Bcrypt} {J : Jwt} {PG : Postgrest}.
Variable env : Env.

Lemma login_failure (body : Login.t) (w : World) (c : Call) (e : JsError.t) :
  In (c, Some e) (calls_of (post_login env body) w) ->
  status (fst (post_login env body w)) = 500.
Proof.
  unfold calls_of, post_login, try_catch, bind, await.
  set (f := OrUsernameEmail _ _).
  pose proof (select_user_log (fun u => u) f w) as L.
  destruct (select_user (fun u => u) f w) as [[e1|[u|]] w1];
    cbn [fst snd reply_error] in L.
  - intros _. reflexivity.
  - unfold compare. destruct (Login.password body) as [p|];
      [unfold ret; destruct (bcrypt_compare p (User.password_hash u))|];
      cbn [negb fst snd]; unfold sign, now, bind, ret, throw; cbn [fst snd];
      rewrite L, calls_after; intros H; failed_call H.
  - unfold ret. cbn [fst snd]. rewrite L, calls_after.
    intros H; failed_call H.
Qed.

Lemma submit_failure (user : Session.t) (body : Submit.t) (w : World)
  (c : Call) (e : JsError.t) :
  In (c, Some e) (calls_of (post_homework user body) w) ->
  fst (post_homework user body w)
  = json 500 (ErrorBody ("提交失敗: " ++ JsError.message e)).
Proof.
  unfold calls_of, post_homework, try_catch, bind, await.
  destruct (negb _);
    [unfold ret; cbn [snd]; rewrite calls_none; intros []|].
  destruct (truthy (Submit.title body)) as [t|];
    [|unfold ret; cbn [snd]; rewrite calls_none; intros []].
  destruct (truthy (Submit.content body)) as [k|];
    [|unfold ret; cbn [snd]; rewrite calls_none; intros []].
  pose proof (insert_homework_log (Session.userId user)
                (Session.username user) t k "pending" w) as L.
  destruct (insert_homework _ _ _ _ _ w) as [[e1|u] w1];
    cbn [fst snd reply_error] in L; unfold ret, throw; cbn [fst snd];
    rewrite L, calls_after; intros H; failed_call H.
  reflexivity.
Qed.

Lemma list_failure (user : Session.t) (w : World) (c : Call) (e : JsError.t) :
  In (c, Some e) (calls_of (get_homework user) w) ->
  fst (get_homework user w) = json 500 (ErrorBody "無法取得資料").
Proof.
  assert (Q : forall f w0 pre,
             log w0 = (log w ++ pre)%list ->
             (forall x, In x pre -> snd x = None) ->
             In (c, Some e)
                (skipn (List.length (log w))
                   (log (snd (try_catch
                      (found <- await (select_homeworks f) ;;
                       match found with
                       | inl error => throw error
                       | inr rows => ret (json 200 (RowsBody rows))
                       end)%handler
                      (fun _ => json 500 (ErrorBody "無法取得資料")) w0)))) ->
             fst (try_catch
                    (found <- await (select_homeworks f) ;;
                     match found with
                     | inl error => throw error
                     | inr rows => ret (json 200 (RowsBody rows))
                     end)%handler
                    (fun _ => json 500 (ErrorBody "無法取得資料")) w0)
             = json 500 (ErrorBody "無法取得資料")).
  { intros f w0 pre Hpre Hok. unfold try_catch, bind, await.
    pose proof (select_homeworks_log f w0) as L.
    destruct (select_homeworks f w0) as [[e1|rows] w1];
      cbn [fst snd reply_error] in L; unfold ret, throw; cbn [fst snd];
      [reflexivity|].
    rewrite L, Hpre, <- app_assoc, calls_after. intros H.
    apply in_app_or in H. destruct H as [H|H].
    - apply Hok in H. discriminate.
    - failed_call H. }
  assert (Q0 : forall f,
             In (c, Some e)
                (skipn (List.length (log w))
                   (log (snd (try_catch
                      (found <- await (select_homeworks f) ;;
                       match found with
                       | inl error => throw error
                       | inr rows => ret (json 200 (RowsBody rows))
                       end)%handler
                      (fun _ => json 500 (ErrorBody "無法取得資料")) w)))) ->
             fst (try_catch
                    (found <- await (select_homeworks f) ;;
                     match found with
                     | inl error => throw error
                     | inr rows => ret (json 200 (RowsBody rows))
                     end)%handler
                    (fun _ => json 500 (ErrorBody "無法取得資料")) w)
             = json 500 (ErrorBody "無法取得資料")).
  { intros f. apply (Q f w []); [symmetry; apply app_nil_r | intros x []]. }
  unfold calls_of, get_homework, scope_query.
  destruct (String.eqb (Session.role user) "student"); [apply Q0|].
  destruct (String.eqb (Session.role user) "teacher"); [apply Q0|].
  destruct (String.eqb (Session.role user) "parent"); [|apply Q0].
  unfold try_catch, bind, await.
  pose proof (select_parent_child_log (Session.userId user) w) as L.
  destruct (select_parent_child (Session.userId user) w)
    as [[e1|[|r rs]] w1]; cbn [fst snd reply_error] in L.
  - intros _. reflexivity.
  - unfold ret. cbn [fst snd]. rewrite L, calls_after.
    intros H; failed_call H.
  - unfold ret.
    specialize (Q (InStudents (map ParentChild.child_id (r :: rs))) w1
                  [(SelectParentChild (Session.userId user), None)] L).
    unfold try_catch, bind, await in Q. apply Q.
    intros x [<-|[]]. reflexivity.
Qed.

Lemma bind_failure (user : Session.t) (body : Bind.t) (w : World)
  (c : Call) (e : JsError.t) :
  In (c, Some e) (calls_of (post_bind_child user body) w) ->
  fst (post_bind_child user body w)
  = if is_insert c && code_is e "23505" then DuplicateRelationship
    else json 500 (ErrorBody "綁定失敗，請稍後再試").
Proof.
  unfold calls_of, post_bind_child, try_catch, bind, await.
  destruct (negb _);
    [unfold ret; cbn [snd]; rewrite calls_none; intros []|].
  destruct (truthy (Bind.childUsername body)) as [n|];
    [|unfold ret; cbn [snd]; rewrite calls_none; intros []].
  set (cols := fun u : User.t => (User.id u, User.role u)).
  pose proof (select_user_log cols (EqUsername n) w) as L.
  destruct (select_user cols (EqUsername n) w) as [[e1|[child|]] w1];
    cbn [fst snd reply_error] in L.
  - unfold throw. cbn [fst snd]. rewrite L, calls_after.
    intros H; failed_call H. reflexivity.
  - destruct (negb (String.eqb (snd child) "student")).
    + unfold ret. cbn [fst snd]. rewrite L, calls_after.
      intros H; failed_call H.
    + pose proof (insert_parent_child_log (Session.userId user) (fst child) w1)
        as L2.
      destruct (insert_parent_child (Session.userId user) (fst child) w1)
        as [[e2|u] w2]; cbn [fst snd reply_error] in L2.
      * destruct (code_is e2 "23505") eqn:K; unfold ret, throw;
          cbn [fst snd]; rewrite L2, L, <- app_assoc, calls_after;
          intros H; failed_call H; cbn [is_insert andb]; rewrite K;
          reflexivity.
      * unfold ret. cbn [fst snd]. rewrite L2, L, <- app_assoc, calls_after.
        intros H; failed_call H.
  - unfold ret. cbn [fst snd]. rewrite L, calls_after.
    intros H; failed_call H.
Qed.

Lemma register_insert_failure (body : Register.t) (w : World)
  (n m : string) (e : JsError.t) :
  In (InsertUser n m, Some e) (calls_of (post_register env body) w) ->
  fst (post_register env body w) = json 500 (ErrorBody "伺服器錯誤").
Proof.
  unfold calls_of, post_register, try_catch, bind, await.
  destruct (truthy (Register.username body)) as [n0|];
    [|unfold ret; cbn [snd]; rewrite calls_none; intros []].
  destruct (truthy (Register.email body)) as [m0|];
    [|unfold ret; cbn [snd]; rewrite calls_none; intros []].
  destruct (truthy (Register.password body)) as [p|];
    [|unfold ret; cbn [snd]; rewrite calls_none; intros []].
  pose proof (select_user_log User.id (OrUsernameEmail n0 m0) w) as L.
  destruct (select_user User.id (OrUsernameEmail n0 m0) w) as [r1 w1].
  cbn [fst snd] in L.
  set (r := js_or (Register.role body) "student").
  pose proof (insert_user_log n0 m0 (bcrypt_hash p 10) r true w1) as L2.
  destruct r1 as [e1|[x|]];
    [| unfold ret; cbn [fst snd]; rewrite L, calls_after;
       intros H; failed_call H |];
    (destruct (insert_user n0 m0 (bcrypt_hash p 10) r true w1)
       as [[e2|u] w2]; cbn [fst snd reply_error] in L2;
     unfold sign, now, bind, ret, throw; cbn [fst snd];
     [reflexivity|];
     rewrite L2, L, <- app_assoc, calls_after;
     intros H; failed_call H).
Qed.

(** X21: every failed store call of login, submission, listing and binding,
    and a failed insert of registration, ends in a 500; the one exception is
    the unique violation (code 23505) of the insert of a binding, answered
    with [DuplicateRelationship]. *)
Theorem store_failures_surface :
  (forall body w c e,
      In (c, Some e) (calls_of (post_login env body) w) ->
      is_StoreError (fst (post_login env body w)) = true)
  /\ (forall user body w c e,
      In (c, Some e) (calls_of (post_homework user body) w) ->
      is_StoreError (fst (post_homework user body w)) = true)
  /\ (forall user w c e,
      In (c, Some e) (calls_of (get_homework user) w) ->
      is_StoreError (fst (get_homework user w)) = true)
  /\ (forall user body w c e,
      In (c, Some e) (calls_of (post_bind_child user body) w) ->
      if is_insert c && code_is e "23505"
      then fst (post_bind_child user body w) = DuplicateRelationship
      else is_StoreError (fst (post_bind_child user body w)) = true)
  /\ (forall body w n m e,
      In (InsertUser n m, Some e) (calls_of (post_register env body) w) ->
      is_StoreError (fst (post_register env body w)) = true).
Proof.
  split; [|split; [|split; [|split]]].
  - intros body w c e H. unfold is_StoreError.
    rewrite (login_failure body w c e H). reflexivity.
  - intros user body w c e H.
    rewrite (submit_failure user body w c e H). reflexivity.
  - intros user w c e H. rewrite (list_failure user w c e H). reflexivity.
  - intros user body w c e H. rewrite (bind_failure user body w c e H).
    destruct (is_insert c && code_is e "23505"); reflexivity.
  - intros body w n m e H.
    rewrite (register_insert_failure body w n m e H). reflexivity.
Qed.

End Failures.

(** C5: when the insert of a submission fails, the body of the 500 response
    is the prefix followed by the store's own error message; evaluated on
    a connection failure. *)
Theorem submit_failure_leaks_store_message :
  fst (post_homework (Sample.session Sample.alice)
         (Submit.mk (Some "Essay") (Some "My summer") None None None)
         (with_faults [Some Sample.outage] Sample.school))
  = json 500
      (ErrorBody
         "提交失敗: connection to server at 10.0.3.7, port 5432 failed").
Proof. reflexivity. Qed.

(** C4: a failure of the duplicate check of a registration is not
    surfaced: the reply's [error] is not read, the insert goes ahead and
    the registration answers 201; evaluated with the store refusing the
    first call. *)
Theorem register_ignores_failed_duplicate_check :
  status (fst (post_register Sample.env
                 (Register.mk (Some "dave") (Some "dave@school.tw")
                              (Some "dave-pw") None)
                 (with_faults [Some Sample.outage] Sample.school)))
  = 201
  /\ log (snd (post_register Sample.env
                 (Register.mk (Some "dave") (Some "dave@school.tw")
                              (Some "dave-pw") None)
                 (with_faults [Some Sample.outage] Sample.school)))
     = [(SelectUser (OrUsernameEmail "dave" "dave@school.tw"),
         Some Sample.outage);
        (InsertUser "dave" "dave@school.tw", None)].
Proof. split; reflexivity. Qed.

(** * Further properties of the routes *)

(** ** The authorization header *)

Lemma split_head (sep : ascii) (a b : string) :
  free_of sep a = true ->
  split sep (a ++ String sep b) = a :: split sep b.
Proof.
  induction a as [|c a IH]; cbn [free_of split append].
  - intros _. rewrite Ascii.eqb_refl. reflexivity.
  - intros H. apply andb_prop in H. destruct H as [Hc Ha].
    apply negb_true_iff in Hc. rewrite Hc, (IH Ha). reflexivity.
Qed.

Lemma append_not_empty (a b : string) (c : ascii) : a ++ String c b <> "".
Proof. destruct a; discriminate. Qed.

(** The second piece of [scheme ++ " " ++ rest]. *)
Lemma bearer_second (scheme rest : string) :
  free_of " " scheme = true ->
  bearer (Some (scheme ++ " " ++ rest)) = nth_error (split " " rest) 0.
Proof.
  intros H. unfold bearer. change (" " ++ rest) with (String " " rest).
  destruct (String.eqb_spec (scheme ++ String " " rest) "") as [E|_];
    [destruct (append_not_empty _ _ _ E)|].
  rewrite (split_head _ _ _ H). reflexivity.
Qed.

Section Header.

Context {B : Bcrypt} {J : Jwt} {PG : Postgrest}.
Variable env : Env.
Variable w : World.

Lemma tokenless_bearer (header : JsField) :
  tokenless header -> truthy (bearer header) = None.
Proof.
  destruct 1 as [|h H|scheme H|scheme rest H].
  - reflexivity.
  - unfold bearer. destruct (String.eqb h ""); [reflexivity|].
    rewrite (split_free _ _ H). reflexivity.
  - change (scheme ++ " ") with (scheme ++ " " ++ "").
    rewrite (bearer_second _ _ H). reflexivity.
  - rewrite (bearer_second _ _ H). reflexivity.
Qed.

(** X1: a request to a protected route whose authorization header carries
    no token is answered 401 and changes nothing: the handler behind the
    gate is not run and the store is not called. *)
Theorem protected_routes_need_a_token (header : JsField)
  (submission : Submit.t) (binding : Bind.t) :
  tokenless header ->
  serve env (PostHomework header submission) w = (MissingCredential, w)
  /\ serve env (GetHomework header) w = (MissingCredential, w)
  /\ serve env (PostBindChild header binding) w = (MissingCredential, w).
Proof.
  intros H. apply tokenless_bearer in H.
  cbn [serve]. unfold authenticateToken. rewrite H. repeat split.
Qed.

(** What follows the first blank of the header, up to the next blank, is
    the token, whatever stands before it. *)
Lemma bearer_any_scheme (scheme token : string) :
  free_of " " scheme = true ->
  free_of " " token = true ->
  bearer (Some (scheme ++ " " ++ token)) = Some token
  /\ forall rest, bearer (Some (scheme ++ " " ++ token ++ " " ++ rest))
                  = Some token.
Proof.
  intros Hs Ht. split.
  - rewrite (bearer_second _ _ Hs), (split_free _ _ Ht). reflexivity.
  - intros rest. rewrite (bearer_second _ _ Hs).
    change (" " ++ rest) with (String " " rest).
    rewrite (split_head _ _ _ Ht). reflexivity.
Qed.

(** X2: the gate does not look at the scheme word of the header nor at
    anything after the token: [scheme token] and [scheme token rest] are
    treated as [Bearer token], for every scheme without a blank (the empty
    one too). *)
Theorem gate_ignores_scheme (scheme token : string)
  (next : Session.t -> World -> Response * World) :
  free_of " " scheme = true ->
  free_of " " token = true ->
  authenticateToken env (Some (scheme ++ " " ++ token)) next w
  = authenticateToken env (Some ("Bearer " ++ token)) next w
  /\ forall rest,
      authenticateToken env (Some (scheme ++ " " ++ token ++ " " ++ rest))
                        next w
      = authenticateToken env (Some ("Bearer " ++ token)) next w.
Proof.
  intros Hs Ht.
  destruct (bearer_any_scheme scheme token Hs Ht) as [E1 E2].
  unfold authenticateToken.
  rewrite E1, (bearer_token _ Ht). split; [reflexivity|].
  intros rest. rewrite E2. reflexivity.
Qed.

End Header.

Lemma protected_routes_need_a_token_witness :
  tokenless (Some "Bearer  abc")
  /\ serve Sample.env (GetHomework (Some "Bearer  abc")) Sample.school
     = (MissingCredential, Sample.school).
Proof.
  assert (T : tokenless (Some "Bearer  abc"))
    by (apply (tokenless_blank "Bearer" "abc"); reflexivity).
  split; [exact T|].
  apply (protected_routes_need_a_token Sample.env Sample.school
           (Some "Bearer  abc")
           (Submit.mk None None None None None) (Bind.mk None) T).
Defined.

Lemma gate_ignores_scheme_witness :
  fst (serve Sample.env
         (GetHomework
            (Some ("Basic " ++ jwt_sign (Claims.mk 4 "ted" "teacher")
                                        "default-secret-key" 990 60)))
         Sample.school)
  = json 200 (RowsBody [Sample.drawing; Sample.sums; Sample.essay]).
Proof.
  cbn [serve].
  assert (F : free_of " " (jwt_sign (Claims.mk 4 "ted" "teacher")
                                    "default-secret-key" 990 60) = true)
    by (vm_compute; reflexivity).
  destruct (gate_ignores_scheme Sample.env Sample.school "Basic"
              (jwt_sign (Claims.mk 4 "ted" "teacher")
                        "default-secret-key" 990 60)
              get_homework eq_refl F) as [E _].
  change ("Basic " ++ ?t) with ("Basic" ++ " " ++ t).
  rewrite E. reflexivity.
Defined.

(** ** Lifetime of an issued token *)

Section Lifetime.

Context {B : Bcrypt} {J : Jwt} {PG : Postgrest}.
Variable env : Env.

(** X3: the token a registration or a login returns opens the gate for
    exactly seven days: at every time before the issue time plus 604800
    seconds the handler runs with the id, username and role of the
    response's user, and from that time on the gate answers 403. *)
Theorem issued_token_lifetime (w w' : World) (r : Response) (st : Z)
  (msg token : string) (pu : PublicUser.t)
  (next : Session.t -> World -> Response * World) :
  (exists body, fst (post_register env body w) = r)
  \/ (exists body, fst (post_login env body w) = r) ->
  r = json st (SessionBody msg token pu) ->
  (clock w' < clock w + 604800 ->
   authenticateToken env (Some ("Bearer " ++ token)) next w'
   = next (Session.mk (PublicUser.id pu) (PublicUser.username pu)
                      (PublicUser.role pu) (clock w) (clock w + 604800)) w')
  /\ (clock w + 604800 <= clock w' ->
      authenticateToken env (Some ("Bearer " ++ token)) next w'
      = (InvalidOrExpiredCredential, w')).
Proof.
  intros Hissued ->.
  assert (T : token = jwt_sign (claims_of pu) (JWT_SECRET env) (clock w)
                               JWT_EXPIRES_IN).
  { destruct Hissued as [[body E]|[body E]].
    - exact (register_token env body w st msg token pu E).
    - exact (login_token env body w st msg token pu E). }
  subst token. change 604800 with JWT_EXPIRES_IN. split; intros H.
  - rewrite (gate_accepts_own_key env _ _ _ next w' H). reflexivity.
  - exact (gate_rejects_expired env _ _ _ next w' H).
Qed.

End Lifetime.

Lemma issued_token_lifetime_witness :
  fst (serve Sample.env
         (GetHomework
            (Some ("Bearer "
                   ++ token_of (fst (post_login Sample.env
                                       (Login.mk (Some "ted") (Some "chalk"))
                                       Sample.school)))))
         (with_clock (1000 + 604799) Sample.school))
  = json 200 (RowsBody [Sample.drawing; Sample.sums; Sample.essay])
  /\ fst (serve Sample.env
            (GetHomework
               (Some ("Bearer "
                      ++ token_of (fst (post_login Sample.env
                                          (Login.mk (Some "ted") (Some "chalk"))
                                          Sample.school)))))
            (with_clock (1000 + 604800) Sample.school))
     = InvalidOrExpiredCredential.
Proof.
  pose (r := fst (post_login Sample.env (Login.mk (Some "ted") (Some "chalk"))
                    Sample.school)).
  assert (E : r = json 200 (SessionBody "登入成功" (token_of r)
                              (PublicUser.mk 4 "ted" "teacher")))
    by (vm_compute; reflexivity).
  assert (L : forall w',
             (clock w' < 1000 + 604800 ->
              authenticateToken Sample.env (Some ("Bearer " ++ token_of r))
                                get_homework w'
              = get_homework (Session.mk 4 "ted" "teacher" 1000
                                         (1000 + 604800)) w')
             /\ (1000 + 604800 <= clock w' ->
                 authenticateToken Sample.env (Some ("Bearer " ++ token_of r))
                                   get_homework w'
                 = (InvalidOrExpiredCredential, w'))).
  { intros w'.
    exact (issued_token_lifetime Sample.env Sample.school w' r 200
             "登入成功" (token_of r) (PublicUser.mk 4 "ted" "teacher")
             get_homework
             (or_intror (ex_intro _ (Login.mk (Some "ted") (Some "chalk"))
                                  eq_refl))
             E). }
  cbn [serve]. fold r. split.
  - rewrite (proj1 (L _)) by reflexivity. reflexivity.
  - rewrite (proj2 (L _)) by (cbn; lia). reflexivity.
Defined.

(** ** Registration *)

Lemma same_data_refl (w : World) : same_data w w.
Proof. repeat split. Qed.

Lemma same_data_trans (a b c : World) :
  same_data a b -> same_data b c -> same_data a c.
Proof.
  intros (U1 & H1 & P1 & N1 & C1) (U2 & H2 & P2 & N2 & C2).
  repeat split; congruence.
Qed.

Lemma same_data_tables (w w' : World) :
  same_data w w' -> tables w' = tables w.
Proof. intros (U & H & P & _). unfold tables. rewrite U, H, P. reflexivity. Qed.

Lemma store_call_data {A} (c : Call) (q : World -> Reply A * World) (w : World) :
  (forall w0, same_data w0 (snd (q w0))) ->
  same_data w (snd (store_call c q w)).
Proof.
  intros Hq. unfold store_call.
  destruct (faults w) as [|[e|] plan].
  - specialize (Hq w). destruct (q w). exact Hq.
  - repeat split.
  - specialize (Hq (with_faults plan w)). destruct (q _). exact Hq.
Qed.

Lemma select_user_data {PG : Postgrest} {A} (cols : User.t -> A) (f : UserFilter) (w : World) :
  same_data w (snd (select_user cols f w)).
Proof. apply store_call_data. intros w0. repeat split. Qed.

Lemma select_homeworks_data (f : HomeworkFilter) (w : World) :
  same_data w (snd (select_homeworks f w)).
Proof. apply store_call_data. intros w0. repeat split. Qed.

Lemma select_parent_child_data (p : Z) (w : World) :
  same_data w (snd (select_parent_child p w)).
Proof. apply store_call_data. intros w0. repeat split. Qed.

(** An insert into [users] either fails and writes nothing, or appends the
    row with the id of the counter. *)
Lemma insert_user_outcome (n e h r : string) (v : bool) (w : World) :
  (exists err, fst (insert_user n e h r v w) = inl err
               /\ same_data w (snd (insert_user n e h r v w)))
  \/ (fst (insert_user n e h r v w) = inr (User.mk (next_user_id w) n e h r v)
      /\ users (snd (insert_user n e h r v w))
         = (users w ++ [User.mk (next_user_id w) n e h r v])%list
      /\ homeworks (snd (insert_user n e h r v w)) = homeworks w
      /\ parent_child (snd (insert_user n e h r v w)) = parent_child w
      /\ clock (snd (insert_user n e h r v w)) = clock w).
Proof.
  unfold insert_user, store_call.
  destruct (faults w) as [|[x|] plan]; cbn [users with_faults next_user_id].
  - destruct (users_unique n e (users w)); [right | left; eexists];
      repeat split.
  - left. eexists. repeat split.
  - destruct (users_unique n e (users w)); [right | left; eexists];
      repeat split.
Qed.

Section Registration.

Context {B : Bcrypt} {J : Jwt} {PG : Postgrest}.
Variable env : Env.
Variable body : Register.t.
Variable w : World.

(** X4: a registration whose username, email or password is missing or
    empty is answered 400 before the store is called; nothing changes. *)
Theorem registration_requires_fields :
  truthy (Register.username body) = None
  \/ truthy (Register.email body) = None
  \/ truthy (Register.password body) = None ->
  post_register env body w = (json 400 (ErrorBody "請填寫完整資料"), w).
Proof.
  intros H. unfold post_register, try_catch.
  destruct (truthy (Register.username body)) as [n|]; [|reflexivity].
  destruct (truthy (Register.email body)) as [e|]; [|reflexivity].
  destruct (truthy (Register.password body)) as [p|]; [|reflexivity].
  destruct H as [H|[H|H]]; discriminate.
Qed.

(** The two ways a registration can end. *)
Lemma register_cases :
  (status (fst (post_register env body w)) <> 201
   /\ tables (snd (post_register env body w)) = tables w)
  \/ exists name mail password,
       truthy (Register.username body) = Some name
       /\ truthy (Register.email body) = Some mail
       /\ truthy (Register.password body) = Some password
       /\ fst (post_register env body w)
          = json 201
              (SessionBody "註冊成功"
                 (jwt_sign (Claims.mk (next_user_id w) name
                                      (js_or (Register.role body) "student"))
                           (JWT_SECRET env) (clock w) JWT_EXPIRES_IN)
                 (PublicUser.mk (next_user_id w) name
                                (js_or (Register.role body) "student")))
       /\ users (snd (post_register env body w))
          = (users w ++ [registered_row body w name mail password])%list
       /\ homeworks (snd (post_register env body w)) = homeworks w
       /\ parent_child (snd (post_register env body w)) = parent_child w.
Proof.
  unfold post_register, try_catch, bind, await.
  destruct (truthy (Register.username body)) as [n|];
    [|left; split; [discriminate | reflexivity]].
  destruct (truthy (Register.email body)) as [e|];
    [|left; split; [discriminate | reflexivity]].
  destruct (truthy (Register.password body)) as [p|];
    [|left; split; [discriminate | reflexivity]].
  pose proof (select_user_data User.id (OrUsernameEmail n e) w) as S.
  destruct (select_user User.id (OrUsernameEmail n e) w) as [r1 w1].
  cbn [snd] in S.
  set (r := js_or (Register.role body) "student").
  pose proof (insert_user_outcome n e (bcrypt_hash p 10) r true w1) as I.
  assert (G : forall (out : Reply User.t * World),
             out = insert_user n e (bcrypt_hash p 10) r true w1 ->
             (exists err, fst out = inl err /\ same_data w (snd out))
             \/ (fst out = inr (User.mk (next_user_id w) n e
                                        (bcrypt_hash p 10) r true)
                 /\ users (snd out)
                    = (users w ++ [User.mk (next_user_id w) n e
                                           (bcrypt_hash p 10) r true])%list
                 /\ homeworks (snd out) = homeworks w
                 /\ parent_child (snd out) = parent_child w
                 /\ clock (snd out) = clock w)).
  { intros out ->. destruct S as (U & H & P & N & C).
    destruct I as [[err [E D]]|(E & U2 & H2 & P2 & C2)].
    - left. exists err. split; [exact E|].
      exact (same_data_trans _ _ _ (conj U (conj H (conj P (conj N C)))) D).
    - right. rewrite E, U2, H2, P2, C2, U, H, P, N, C. repeat split. }
  clear I.
  destruct r1 as [e1|[x|]];
    [| left; split; [discriminate | apply same_data_tables, S] |];
    (specialize (G _ eq_refl);
     destruct (insert_user n e (bcrypt_hash p 10) r true w1) as [r2 w2];
     cbn [fst snd] in G;
     destruct G as [[err [-> D]]|(-> & U2 & H2 & P2 & C2)];
     [left; unfold throw; cbn [fst snd];
      split; [discriminate | apply same_data_tables, D]
     |right; exists n, e, p; unfold sign, now, bind, ret; cbn [fst snd];
      rewrite C2; repeat split; assumption]).
Qed.

(** X5: whatever the store does, a registration either is not answered
    201 and leaves the three tables as they were, or is answered 201 and
    has appended exactly one identity: its id is the store's, its username
    and email are those of the request, its password is stored as the
    bcrypt hash (cost 10), its role is the role of the request or
    [student] when none is given, it is marked verified; the response
    carries that id, username and role and a token signed for them. *)
Theorem registration_outcome :
  (status (fst (post_register env body w)) <> 201
   /\ tables (snd (post_register env body w)) = tables w)
  \/ exists name mail password,
       truthy (Register.username body) = Some name
       /\ truthy (Register.email body) = Some mail
       /\ truthy (Register.password body) = Some password
       /\ fst (post_register env body w)
          = json 201
              (SessionBody "註冊成功"
                 (jwt_sign (Claims.mk (next_user_id w) name
                                      (js_or (Register.role body) "student"))
                           (JWT_SECRET env) (clock w) JWT_EXPIRES_IN)
                 (PublicUser.mk (next_user_id w) name
                                (js_or (Register.role body) "student")))
       /\ users (snd (post_register env body w))
          = (users w ++ [registered_row body w name mail password])%list
       /\ homeworks (snd (post_register env body w)) = homeworks w
       /\ parent_child (snd (post_register env body w)) = parent_child w.
Proof. exact register_cases. Qed.

Hypothesis store_up : faults w = [].
Variables name mail password : string.
Hypothesis has_name : truthy (Register.username body) = Some name.
Hypothesis has_mail : truthy (Register.email body) = Some mail.
Hypothesis has_password : truthy (Register.password body) = Some password.
Hypothesis plain_name : plain name = true.
Hypothesis plain_mail : plain mail = true.

Lemma register_lookup :
  post_register env body w
  = match maybeSingle
            (map User.id
                 (filter (user_matches (OrUsernameEmail name mail)) (users w)))
    with
    | inr (Some _) =>
        (DuplicateIdentity,
         logged (SelectUser (OrUsernameEmail name mail)) None w)
    | reply =>
        try_catch
          (inserted <- await (insert_user name mail (bcrypt_hash password 10)
                                (js_or (Register.role body) "student") true) ;;
           match inserted with
           | inl insertError => throw insertError
           | inr newUser =>
               token <- sign env newUser ;;
               ret (json 201 (SessionBody "註冊成功" token (public newUser)))
           end)%handler
          (fun _ => json 500 (ErrorBody "伺服器錯誤"))
          (logged (SelectUser (OrUsernameEmail name mail)) (reply_error reply) w)
    end.
Proof.
  unfold post_register, try_catch, bind, await.
  rewrite has_name, has_mail, has_password.
  unfold select_user. rewrite store_call_ok by exact store_up.
  cbn [fst snd user_rows].
  rewrite (postgrest_or_plain _ _ _ plain_name plain_mail).
  destruct (maybeSingle _) as [e1|[x|]]; reflexivity.
Qed.

(** X6: for a plain username and email, when exactly one stored identity
    has the username or the email of the request, the registration is
    answered 409; the duplicate check is the only store call and no table
    changes. *)
Theorem registration_duplicate (existing : User.t) :
  filter (user_matches (OrUsernameEmail name mail)) (users w) = [existing] ->
  post_register env body w
  = (DuplicateIdentity, logged (SelectUser (OrUsernameEmail name mail)) None w).
Proof. intros H. rewrite register_lookup, H. reflexivity. Qed.

(** X7: for a plain username and email, when the username belongs to one
    stored identity and the email to another, so that the duplicate check
    meets two rows (or more), the
    check replies with an error, the insert is tried and refused by the
    store, and the registration is answered 500, not 409; no table
    changes. *)
Theorem registration_two_identities (u v : User.t) (others : list User.t) :
  filter (user_matches (OrUsernameEmail name mail)) (users w)
  = u :: v :: others ->
  fst (post_register env body w) = json 500 (ErrorBody "伺服器錯誤")
  /\ tables (snd (post_register env body w)) = tables w
  /\ calls_of (post_register env body) w
     = [(SelectUser (OrUsernameEmail name mail), Some PGRST116);
        (InsertUser name mail, Some (unique_violation "users_key"))].
Proof.
  intros H.
  assert (D : users_unique name mail (users w) = false).
  { unfold users_unique. apply negb_false_iff. apply existsb_exists.
    exists u.
    assert (M : In u (filter (user_matches (OrUsernameEmail name mail))
                             (users w))) by (rewrite H; left; reflexivity).
    apply filter_In in M. exact M. }
  unfold calls_of. rewrite register_lookup, H.
  cbn [map maybeSingle reply_error].
  unfold try_catch, bind, await, insert_user.
  rewrite store_call_ok by exact store_up.
  cbn [fst snd users logged]. rewrite D.
  unfold throw. cbn [fst snd reply_error log logged].
  rewrite <- app_assoc, calls_after. repeat split.
Qed.

End Registration.

Lemma registration_requires_fields_witness :
  post_register Sample.env
    (Register.mk (Some "gina") (Some "") (Some "gina-pw") None) Sample.school
  = (json 400 (ErrorBody "請填寫完整資料"), Sample.school).
Proof.
  apply (registration_requires_fields Sample.env
           (Register.mk (Some "gina") (Some "") (Some "gina-pw") None)
           Sample.school).
  right. left. reflexivity.
Defined.

Lemma registration_outcome_witness :
  users (snd (post_register Sample.env Sample.frank Sample.office))
  = [Sample.erin;
     User.mk 2 "frank" "frank@school.tw" (Plain.hash "frank-pw" 10)
             "student" true].
Proof.
  destruct (registration_outcome Sample.env Sample.frank Sample.office)
    as [[Hno _]|(n & m & p & Hn & Hm & Hp & _ & Hu & _)].
  - exfalso. apply Hno. reflexivity.
  - injection Hn as <-. injection Hm as <-. injection Hp as <-. exact Hu.
Defined.

Lemma registration_duplicate_witness :
  fst (post_register Sample.env
         (Register.mk (Some "alice") (Some "other@school.tw") (Some "pw") None)
         Sample.school)
  = DuplicateIdentity.
Proof.
  rewrite (registration_duplicate Sample.env
             (Register.mk (Some "alice") (Some "other@school.tw")
                          (Some "pw") None)
             Sample.school eq_refl "alice" "other@school.tw" "pw"
             eq_refl eq_refl eq_refl eq_refl eq_refl Sample.alice eq_refl).
  reflexivity.
Defined.

Lemma registration_two_identities_witness :
  fst (post_register Sample.env
         (Register.mk (Some "alice") (Some "bob@school.tw") (Some "pw") None)
         Sample.school)
  = json 500 (ErrorBody "伺服器錯誤").
Proof.
  apply (registration_two_identities Sample.env
           (Register.mk (Some "alice") (Some "bob@school.tw") (Some "pw") None)
           Sample.school eq_refl "alice" "bob@school.tw" "pw"
           eq_refl eq_refl eq_refl eq_refl eq_refl
           Sample.alice Sample.bob [] eq_refl).
Defined.

(** ** Login *)

Section LoginEdges.

Context {B : Bcrypt} {J : Jwt} {PG : Postgrest}.
Variable env : Env.
Variable w : World.

(** X8: whatever the store does and whatever the login name, a login is
    answered 200 only when the request carries a password, the lookup
    returned one stored identity, and bcrypt verifies the password against
    the hash stored for that identity; the response then carries that
    identity's id, username and role and a token signed for them at the
    current time.  When the login name is plain, that identity's username
    or email is the login name. *)
Theorem login_success_needs_valid_password (body : Login.t) :
  status (fst (post_login env body w)) = 200 ->
  exists identity password,
    In identity (users w)
    /\ (plain (interpolate (Login.username body)) = true ->
        User.username identity = interpolate (Login.username body)
        \/ User.email identity = interpolate (Login.username body))
    /\ Login.password body = Some password
    /\ bcrypt_compare password (User.password_hash identity) = true
    /\ fst (post_login env body w)
       = json 200
           (SessionBody "登入成功"
              (jwt_sign (Claims.mk (User.id identity) (User.username identity)
                                   (User.role identity))
                        (JWT_SECRET env) (clock w) JWT_EXPIRES_IN)
              (public identity)).
Proof.
  unfold post_login, try_catch, bind, await.
  set (name := interpolate (Login.username body)).
  pose proof (select_user_clock (fun u => u) (OrUsernameEmail name name) w)
    as C.
  pose proof (select_user_found (fun u => u) (OrUsernameEmail name name) w)
    as F.
  destruct (select_user (fun u => u) (OrUsernameEmail name name) w)
    as [[e1|[u|]] w1]; cbn [fst snd] in C, F; try discriminate.
  destruct (F u eq_refl) as [u' [Hin [<- Hone]]]. clear F.
  unfold compare. destruct (Login.password body) as [p|]; [|discriminate].
  unfold ret.
  destruct (bcrypt_compare p (User.password_hash u)) eqn:V; [|discriminate].
  cbn [negb]. unfold sign, now, bind, ret. cbn [fst]. intros _.
  exists u, p. rewrite C.
  repeat split; try assumption.
  intros Hplain. rewrite (lookup_plain name w Hplain) in Hone.
  injection Hone as Hone.
  assert (M : In u (identities_named name w))
    by (rewrite Hone; left; reflexivity).
  apply filter_In in M. destruct M as [_ M]. cbn [user_matches] in M.
  apply orb_prop in M.
  destruct M as [M|M]; apply String.eqb_eq in M; [left | right]; exact M.
Qed.

Hypothesis store_up : faults w = [].

(** X9: an identity whose username and email are plain can log in with
    its email in place of its username: when each of the two is the
    username or email of that identity alone, the two logins get the same
    response, for any password field. *)
Theorem login_by_email (identity : User.t) (password : JsField) :
  plain (User.username identity) = true ->
  plain (User.email identity) = true ->
  identities_named (User.username identity) w = [identity] ->
  identities_named (User.email identity) w = [identity] ->
  fst (post_login env (Login.mk (Some (User.email identity)) password) w)
  = fst (post_login env (Login.mk (Some (User.username identity)) password) w).
Proof.
  intros Hpn Hpm Hname Hmail.
  unfold post_login, try_catch, bind, await, select_user.
  rewrite !store_call_ok by exact store_up.
  cbn [fst snd interpolate Login.username Login.password].
  rewrite (lookup_plain _ w Hpn), (lookup_plain _ w Hpm), Hname, Hmail.
  cbn [map maybeSingle].
  unfold compare, ret, throw. destruct password as [p|]; [|reflexivity].
  destruct (bcrypt_compare p (User.password_hash identity)); reflexivity.
Qed.

(** X10: a login with a plain name that carries no password is answered
    500 when the name is the username or email of exactly one stored
    identity (bcrypt rejects the missing password and the route's catch
    answers), and 401 when it is that of none. *)
Theorem login_without_password (name : JsField) (identity : User.t) :
  plain (interpolate name) = true ->
  (identities_named (interpolate name) w = [identity] ->
   fst (post_login env (Login.mk name None) w)
   = json 500 (ErrorBody "伺服器錯誤"))
  /\ (identities_named (interpolate name) w = [] ->
      fst (post_login env (Login.mk name None) w) = InvalidCredentials).
Proof.
  intros Hplain. split; intros H.
  - unfold post_login, try_catch, bind, await, select_user.
    rewrite store_call_ok by exact store_up.
    cbn [fst snd interpolate Login.username Login.password].
    rewrite (lookup_plain _ w Hplain), H. reflexivity.
  - rewrite (login_not_found env (Login.mk name None) w store_up Hplain H).
    reflexivity.
Qed.

End LoginEdges.

Lemma login_success_needs_valid_password_witness :
  exists identity,
    In identity (users Sample.school)
    /\ User.email identity = "carol@home.tw"
    /\ bcrypt_compare "christmas" (User.password_hash identity) = true.
Proof.
  assert (S : status (fst (post_login Sample.env
                             (Login.mk (Some "carol@home.tw")
                                       (Some "christmas"))
                             Sample.school)) = 200)
    by (vm_compute; reflexivity).
  destruct (login_success_needs_valid_password Sample.env Sample.school
              (Login.mk (Some "carol@home.tw") (Some "christmas")) S)
    as (identity & password & Hin & Hname & Hp & Hv & _).
  destruct (Hname eq_refl) as [Hn|He].
  - exfalso. cbn in Hin. cbn in Hn.
    destruct Hin as [<-|[<-|[<-|[<-|[]]]]]; discriminate.
  - injection Hp as <-. exists identity. repeat split; assumption.
Defined.

Lemma login_by_email_witness :
  fst (post_login Sample.env
         (Login.mk (Some "alice@school.tw") (Some "rabbit-hole")) Sample.school)
  = fst (post_login Sample.env
           (Login.mk (Some "alice") (Some "rabbit-hole")) Sample.school).
Proof.
  exact (login_by_email Sample.env Sample.school eq_refl Sample.alice
           (Some "rabbit-hole") eq_refl eq_refl eq_refl eq_refl).
Defined.

Lemma login_without_password_witness :
  fst (post_login Sample.env (Login.mk (Some "alice") None) Sample.school)
  = json 500 (ErrorBody "伺服器錯誤")
  /\ fst (post_login Sample.env (Login.mk (Some "zoe") None) Sample.school)
     = InvalidCredentials.
Proof.
  split.
  - exact (proj1 (login_without_password Sample.env Sample.school eq_refl
                    (Some "alice") Sample.alice eq_refl) eq_refl).
  - exact (proj2 (login_without_password Sample.env Sample.school eq_refl
                    (Some "zoe") Sample.alice eq_refl) eq_refl).
Defined.

(** ** Reading routes *)

Section ReadOnly.

Context {B : Bcrypt} {J : Jwt} {PG : Postgrest}.
Variable env : Env.

Lemma login_data (body : Login.t) (w : World) :
  same_data w (snd (post_login env body w)).
Proof.
  unfold post_login, try_catch, bind, await.
  set (f := OrUsernameEmail _ _).
  pose proof (select_user_data (fun u => u) f w) as S.
  destruct (select_user (fun u => u) f w) as [[e|[u|]] w1];
    cbn [snd] in *; try exact S.
  unfold compare. destruct (Login.password body) as [p|]; [|exact S].
  unfold ret. destruct (bcrypt_compare p (User.password_hash u)); exact S.
Qed.

Lemma listing_data (user : Session.t) (w : World) :
  same_data w (snd (get_homework user w)).
Proof.
  assert (Q : forall f w0,
             same_data w0
               (snd (try_catch
                  (found <- await (select_homeworks f) ;;
                   match found with
                   | inl error => throw error
                   | inr rows => ret (json 200 (RowsBody rows))
                   end)%handler
                  (fun _ => json 500 (ErrorBody "無法取得資料")) w0))).
  { intros f w0. unfold try_catch, bind, await.
    pose proof (select_homeworks_data f w0) as S.
    destruct (select_homeworks f w0) as [[e|rows] w1]; exact S. }
  unfold get_homework, scope_query.
  destruct (String.eqb (Session.role user) "student"); [apply Q|].
  destruct (String.eqb (Session.role user) "teacher"); [apply Q|].
  destruct (String.eqb (Session.role user) "parent"); [|apply Q].
  unfold try_catch, bind, await.
  pose proof (select_parent_child_data (Session.userId user) w) as S.
  destruct (select_parent_child (Session.userId user) w)
    as [[e|[|r rs]] w1]; cbn [snd] in S; try exact S.
  unfold ret.
  eapply same_data_trans; [exact S|].
  specialize (Q (InStudents (map ParentChild.child_id (r :: rs))) w1).
  unfold try_catch, bind, await in Q. exact Q.
Qed.

(** X11: a login and a listing never write: whatever the request, the
    session and the failures of the store, the three tables are after the
    request what they were before, through the gate as well. *)
Theorem reading_routes_never_write (w : World) :
  (forall body, tables (snd (serve env (PostLogin body) w)) = tables w)
  /\ (forall header, tables (snd (serve env (GetHomework header) w)) = tables w)
  /\ (forall user, tables (snd (get_homework user w)) = tables w).
Proof.
  split; [|split].
  - intros body. apply same_data_tables, login_data.
  - intros header. cbn [serve].
    destruct (gate_cases env header get_homework w) as [->|[user ->]];
      [reflexivity|].
    apply same_data_tables, listing_data.
  - intros user. apply same_data_tables, listing_data.
Qed.

End ReadOnly.

(** ** Submission, then listing *)

Section SubmitThenList.

Variable user : Session.t.
Variable body : Submit.t.
Variable w : World.

(** X12: a submission by a student whose title or content is missing or
    empty is answered 400 before the store is called; nothing changes. *)
Theorem submission_requires_title_and_content :
  Session.role user = "student" ->
  truthy (Submit.title body) = None \/ truthy (Submit.content body) = None ->
  post_homework user body w = (json 400 (ErrorBody "標題與內容不能為空"), w).
Proof.
  intros Hrole H. unfold post_homework, try_catch. rewrite Hrole. literals.
  destruct (truthy (Submit.title body)) as [t|]; [|reflexivity].
  destruct (truthy (Submit.content body)) as [c|]; [|reflexivity].
  destruct H; discriminate.
Qed.

Variables title content : string.
Hypothesis store_up : faults w = [].
Hypothesis is_student : Session.role user = "student".
Hypothesis has_title : truthy (Submit.title body) = Some title.
Hypothesis has_content : truthy (Submit.content body) = Some content.

Lemma submit_accepted :
  post_homework user body w
  = (json 200 (MessageBody "功課提交成功！"),
     logged (InsertHomework (Session.userId user) title) None
       (with_homeworks
          (homeworks w
             ++ [Homework.mk (Session.userId user) (Session.username user)
                             title content "pending" (clock w)]) w)).
Proof.
  rewrite (submit_student user w body title content is_student has_title
             has_content).
  cbv zeta. unfold insert_homework. rewrite store_call_ok by exact store_up.
  reflexivity.
Qed.

(** X13: on a store that answers, what a student submits is in the
    student's next listing: the listing is the student's earlier rows and
    the new row (owner from the session, status [pending], created at the
    time of the submission), newest first; the listing of every other
    student is what it was before the submission. *)
Theorem submitted_homework_is_listed :
  (exists rows,
      fst (get_homework user (snd (post_homework user body w)))
      = json 200 (RowsBody rows)
      /\ In (Homework.mk (Session.userId user) (Session.username user)
                         title content "pending" (clock w)) rows
      /\ Permutation rows
           (Homework.mk (Session.userId user) (Session.username user)
                        title content "pending" (clock w)
            :: filter (fun h => Z.eqb (Homework.student_id h)
                                      (Session.userId user))
                      (homeworks w))
      /\ StronglySorted newest_first rows)
  /\ (forall other,
         Session.role other = "student" ->
         Session.userId other <> Session.userId user ->
         fst (get_homework other (snd (post_homework user body w)))
         = fst (get_homework other w)).
Proof.
  rewrite submit_accepted. cbn [snd].
  set (row := Homework.mk _ _ _ _ _ _).
  set (w1 := logged _ _ _).
  assert (Hup : faults w1 = []) by exact store_up.
  assert (Hrows : homeworks w1 = (homeworks w ++ [row])%list) by reflexivity.
  split.
  - rewrite (listing_student user w1 Hup is_student). cbn [fst].
    eexists. split; [reflexivity|].
    assert (P : Permutation
                  (order_desc
                     (filter (homework_matches (EqStudent (Session.userId user)))
                             (homeworks w1)))
                  (row :: filter (fun h => Z.eqb (Homework.student_id h)
                                                 (Session.userId user))
                                 (homeworks w))).
    { eapply perm_trans; [apply order_desc_perm|].
      rewrite Hrows, filter_app. cbn [filter homework_matches].
      unfold row at 1. cbn [Homework.student_id]. rewrite Z.eqb_refl.
      apply Permutation_sym, Permutation_cons_append. }
    split; [|split; [exact P | apply order_desc_sorted]].
    apply (Permutation_in _ (Permutation_sym P)). left. reflexivity.
  - intros other Hrole Hother.
    rewrite (listing_student other w1 Hup Hrole).
    rewrite (listing_student other w store_up Hrole). cbn [fst].
    rewrite Hrows, filter_app. cbn [filter homework_matches].
    unfold row. cbn [Homework.student_id].
    destruct (Z.eqb_spec (Session.userId user) (Session.userId other))
      as [E|_]; [destruct (Hother (eq_sym E))|].
    rewrite app_nil_r. reflexivity.
Qed.

End SubmitThenList.

Lemma submission_requires_title_and_content_witness :
  post_homework (Sample.session Sample.alice)
    (Submit.mk (Some "Essay") None None None None) Sample.school
  = (json 400 (ErrorBody "標題與內容不能為空"), Sample.school).
Proof.
  apply (submission_requires_title_and_content (Sample.session Sample.alice)
           (Submit.mk (Some "Essay") None None None None) Sample.school
           eq_refl).
  right. reflexivity.
Defined.

Lemma submitted_homework_is_listed_witness :
  exists rows,
    fst (get_homework (Sample.session Sample.bob)
           (snd (post_homework (Sample.session Sample.bob)
                   (Submit.mk (Some "Poem") (Some "Roses are red")
                              None None None)
                   Sample.school)))
    = json 200 (RowsBody rows)
    /\ Permutation rows
         [Homework.mk 2 "bob" "Poem" "Roses are red" "pending" 1000;
          Sample.sums].
Proof.
  destruct (submitted_homework_is_listed (Sample.session Sample.bob)
              (Submit.mk (Some "Poem") (Some "Roses are red") None None None)
              Sample.school "Poem" "Roses are red"
              eq_refl eq_refl eq_refl eq_refl)
    as [(rows & Hresp & _ & Hperm & _) _].
  exists rows. split; [exact Hresp | exact Hperm].
Defined.

(** ** Binding *)



Section Binding.

Context {PG : Postgrest}.
Variable user : Session.t.
Variable body : Bind.t.
Variable w : World.

(** X14: a binding asked by a caller whose role is not [parent] is
    answered 403 and changes nothing: no store call is issued, whatever
    the body. *)
Theorem binding_requires_parent :
  Session.role user <> "parent" ->
  post_bind_child user body w = (UnauthorizedRole_bind, w).
Proof.
  intros Hrole. unfold post_bind_child, try_catch.
  destruct (String.eqb_spec (Session.role user) "parent") as [E|_];
    [contradiction | reflexivity].
Qed.

Hypothesis is_parent : Session.role user = "parent".

(** X15: a binding by a parent without a child username is answered 400
    before the store is called; with a username no stored identity has, on
    a store that answers, it is answered 404 after the lookup alone, and
    no table changes. *)
Theorem binding_unknown_target :
  (truthy (Bind.childUsername body) = None ->
   post_bind_child user body w = (json 400 (ErrorBody "請輸入學生帳號"), w))
  /\ (forall name,
         truthy (Bind.childUsername body) = Some name ->
         faults w = [] ->
         filter (user_matches (EqUsername name)) (users w) = [] ->
         post_bind_child user body w
         = (TargetNotFound, logged (SelectUser (EqUsername name)) None w)).
Proof.
  split.
  - intros H. unfold post_bind_child, try_catch.
    rewrite is_parent, H. reflexivity.
  - intros name Hname Hup Hnone.
    unfold post_bind_child, try_catch, bind, await, select_user, user_rows.
    rewrite is_parent, Hname. literals.
    rewrite store_call_ok by exact Hup. cbn [fst snd]. rewrite Hnone.
    reflexivity.
Qed.

Variable name : string.
Variable target : User.t.
Hypothesis store_up : faults w = [].
Hypothesis has_name : truthy (Bind.childUsername body) = Some name.
Hypothesis found :
  filter (user_matches (EqUsername name)) (users w) = [target].
Hypothesis is_student : User.role target = "student".

(** A binding that reaches the insert. *)
Lemma bind_found :
  post_bind_child user body w
  = if bound (Session.userId user) (User.id target) (parent_child w)
    then (DuplicateRelationship,
          logged (InsertParentChild (Session.userId user) (User.id target))
                 (Some (unique_violation "parent_child_key"))
                 (logged (SelectUser (EqUsername name)) None w))
    else (json 200 (MessageBody ("成功綁定學生：" ++ name)),
          logged (InsertParentChild (Session.userId user) (User.id target)) None
            (with_parent_child
               (parent_child w
                  ++ [ParentChild.mk (Session.userId user) (User.id target)])
               (logged (SelectUser (EqUsername name)) None w))).
Proof.
  unfold post_bind_child, try_catch, bind, await, select_user, user_rows.
  rewrite is_parent, has_name. literals.
  rewrite store_call_ok by exact store_up. cbn [fst snd].
  rewrite found. cbn [map maybeSingle reply_error fst snd].
  rewrite is_student. literals.
  unfold insert_parent_child. rewrite store_call_ok by exact store_up.
  cbn [fst snd parent_child logged].
  destruct (bound (Session.userId user) (User.id target) (parent_child w));
    reflexivity.
Qed.

(** X16: on a store that answers, a parent binding a stored student gets
    200 with the student's username in the message and the pair appended
    to the relationships when the pair is not there yet, and 409 with no
    table changed when it is; hence the same binding asked a second time
    is answered 409 and adds nothing. *)
Theorem binding_twice :
  (bound (Session.userId user) (User.id target) (parent_child w) = false ->
   fst (post_bind_child user body w)
   = json 200 (MessageBody ("成功綁定學生：" ++ name))
   /\ parent_child (snd (post_bind_child user body w))
      = (parent_child w
           ++ [ParentChild.mk (Session.userId user) (User.id target)])%list)
  /\ (bound (Session.userId user) (User.id target) (parent_child w) = true ->
      fst (post_bind_child user body w) = DuplicateRelationship
      /\ tables (snd (post_bind_child user body w)) = tables w)
  /\ fst (post_bind_child user body (snd (post_bind_child user body w)))
     = DuplicateRelationship
  /\ tables (snd (post_bind_child user body (snd (post_bind_child user body w))))
     = tables (snd (post_bind_child user body w)).
Proof.
  split; [|split].
  - intros H. rewrite bind_found, H. split; reflexivity.
  - intros H. rewrite bind_found, H. split; reflexivity.
  - assert (Again : forall w1,
               faults w1 = [] ->
               users w1 = users w ->
               bound (Session.userId user) (User.id target) (parent_child w1)
               = true ->
               fst (post_bind_child user body w1) = DuplicateRelationship
               /\ tables (snd (post_bind_child user body w1)) = tables w1).
    { intros w1 Hup Hu Hb.
      unfold post_bind_child, try_catch, bind, await, select_user, user_rows.
      rewrite is_parent, has_name. literals.
      rewrite store_call_ok by exact Hup. cbn [fst snd].
      rewrite Hu, found. cbn [map maybeSingle reply_error fst snd].
      rewrite is_student. literals.
      unfold insert_parent_child. rewrite store_call_ok by exact Hup.
      cbn [fst snd parent_child logged]. rewrite Hb. split; reflexivity. }
    rewrite bind_found.
    destruct (bound (Session.userId user) (User.id target) (parent_child w))
      eqn:Hb; cbn [snd]; apply Again; try reflexivity;
      try exact store_up.
    + exact Hb.
    + cbn [parent_child with_parent_child logged]. unfold bound.
      rewrite existsb_app. cbn [existsb ParentChild.parent_id
                                  ParentChild.child_id].
      rewrite !Z.eqb_refl. cbn [andb orb]. apply orb_true_r.
Qed.


End Binding.

Lemma binding_requires_parent_witness :
  post_bind_child (Sample.session Sample.ted) (Bind.mk (Some "alice"))
                  Sample.school
  = (UnauthorizedRole_bind, Sample.school).
Proof.
  apply (binding_requires_parent (Sample.session Sample.ted)
           (Bind.mk (Some "alice")) Sample.school).
  discriminate.
Defined.

Lemma binding_unknown_target_witness :
  fst (post_bind_child (Sample.session Sample.carol) (Bind.mk (Some "zoe"))
                       Sample.school)
  = TargetNotFound
  /\ fst (post_bind_child (Sample.session Sample.carol) (Bind.mk (Some ""))
                          Sample.school)
     = json 400 (ErrorBody "請輸入學生帳號").
Proof.
  split.
  - rewrite (proj2 (binding_unknown_target (Sample.session Sample.carol)
                      (Bind.mk (Some "zoe")) Sample.school eq_refl)
               "zoe" eq_refl eq_refl eq_refl).
    reflexivity.
  - rewrite (proj1 (binding_unknown_target (Sample.session Sample.carol)
                      (Bind.mk (Some "")) Sample.school eq_refl) eq_refl).
    reflexivity.
Defined.

Lemma binding_twice_witness :
  fst (post_bind_child (Session.mk 7 "pat" "parent" 900 2000)
                       (Bind.mk (Some "alice")) Sample.school)
  = json 200 (MessageBody "成功綁定學生：alice")
  /\ fst (post_bind_child (Session.mk 7 "pat" "parent" 900 2000)
            (Bind.mk (Some "alice"))
            (snd (post_bind_child (Session.mk 7 "pat" "parent" 900 2000)
                    (Bind.mk (Some "alice")) Sample.school)))
     = DuplicateRelationship.
Proof.
  destruct (binding_twice (Session.mk 7 "pat" "parent" 900 2000)
              (Bind.mk (Some "alice")) Sample.school eq_refl
              "alice" Sample.alice eq_refl eq_refl eq_refl eq_refl)
    as (Hnew & _ & Hagain & _).
  split; [exact (proj1 (Hnew eq_refl)) | exact Hagain].
Defined.


(** ** What the server stores *)

Lemma store_call_frame {A X} (f : World -> X) (c : Call)
  (q : World -> Reply A * World) (w : World) :
  (forall c0 e w0, f (logged c0 e w0) = f w0) ->
  (forall p w0, f (with_faults p w0) = f w0) ->
  (forall w0, f (snd (q w0)) = f w0) ->
  f (snd (store_call c q w)) = f w.
Proof.
  intros Hl Hf Hq. unfold store_call.
  destruct (faults w) as [|[e|] plan].
  - specialize (Hq w). destruct (q w) as [r w1].
    change (f (logged c (reply_error r) w1) = f w).
    rewrite Hl. exact Hq.
  - change (f (logged c (Some e) (with_faults plan w)) = f w).
    rewrite Hl, Hf. reflexivity.
  - specialize (Hq (with_faults plan w)). destruct (q _) as [r w1].
    change (f (logged c (reply_error r) w1) = f w).
    rewrite Hl. cbn [snd] in Hq. rewrite Hq, Hf. reflexivity.
Qed.

Lemma insert_parent_child_keeps (p c : Z) (w : World) :
  users (snd (insert_parent_child p c w)) = users w
  /\ homeworks (snd (insert_parent_child p c w)) = homeworks w.
Proof.
  split; apply store_call_frame; try reflexivity;
    intros w0; destruct (bound p c (parent_child w0)); reflexivity.
Qed.

Lemma insert_homework_keeps (i : Z) (n t c s : string) (w : World) :
  users (snd (insert_homework i n t c s w)) = users w.
Proof. apply store_call_frame; reflexivity. Qed.

(** An insert into [homeworks] either fails and writes nothing, or appends
    the row, created at the store's time. *)
Lemma insert_homework_outcome (i : Z) (n t c s : string) (w : World) :
  homeworks (snd (insert_homework i n t c s w)) = homeworks w
  \/ homeworks (snd (insert_homework i n t c s w))
     = (homeworks w ++ [Homework.mk i n t c s (clock w)])%list.
Proof.
  unfold insert_homework, store_call.
  destruct (faults w) as [|[x|] plan]; [right | left | right]; reflexivity.
Qed.

Lemma truthy_not_empty (x : JsField) (s : string) :
  truthy x = Some s -> s <> "".
Proof.
  unfold truthy. destruct x as [y|]; [|discriminate].
  destruct (String.eqb_spec y "") as [E|N]; [discriminate|].
  intros H. injection H as <-. exact N.
Qed.

Lemma js_or_not_empty (x : JsField) (d : string) :
  d <> "" -> js_or x d <> "".
Proof.
  intros Hd. unfold js_or. destruct (truthy x) as [s|] eqn:E; [|exact Hd].
  exact (truthy_not_empty x s E).
Qed.

Section Stored.

Context {B : Bcrypt} {J : Jwt} {PG : Postgrest}.
Variable env : Env.

Lemma submit_homeworks (user : Session.t) (body : Submit.t) (w : World) :
  homeworks (snd (post_homework user body w)) = homeworks w
  \/ exists title content,
       truthy (Submit.title body) = Some title
       /\ truthy (Submit.content body) = Some content
       /\ homeworks (snd (post_homework user body w))
          = (homeworks w
               ++ [Homework.mk (Session.userId user) (Session.username user)
                               title content "pending" (clock w)])%list.
Proof.
  unfold post_homework, try_catch, bind, await.
  destruct (negb _); [left; reflexivity|].
  destruct (truthy (Submit.title body)) as [t|]; [|left; reflexivity].
  destruct (truthy (Submit.content body)) as [c|]; [|left; reflexivity].
  pose proof (insert_homework_outcome (Session.userId user)
                (Session.username user) t c "pending" w) as I.
  destruct (insert_homework _ _ _ _ _ w) as [[e|u] w1]; cbn [snd] in I;
    (destruct I as [I|I]; [left; exact I | right; exists t, c; auto]).
Qed.

Lemma bind_keeps (user : Session.t) (body : Bind.t) (w : World) :
  users (snd (post_bind_child user body w)) = users w
  /\ homeworks (snd (post_bind_child user body w)) = homeworks w.
Proof.
  unfold post_bind_child, try_catch, bind, await.
  destruct (negb _); [split; reflexivity|].
  destruct (truthy (Bind.childUsername body)) as [n|]; [|split; reflexivity].
  set (cols := fun u : User.t => (User.id u, User.role u)).
  pose proof (select_user_data cols (EqUsername n) w) as (U & H & _).
  destruct (select_user cols (EqUsername n) w) as [[e|[child|]] w1];
    cbn [snd] in U, H; try (split; assumption).
  destruct (negb _); [split; assumption|].
  pose proof (insert_parent_child_keeps (Session.userId user) (fst child) w1)
    as [U2 H2].
  destruct (insert_parent_child (Session.userId user) (fst child) w1)
    as [[e|u] w2]; cbn [snd] in U2, H2;
    [destruct (code_is e "23505")|]; unfold ret, throw; cbn [snd];
    split; congruence.
Qed.

Lemma serve_homeworks (r : Request) (w : World) :
  Forall pending_homework (homeworks w) ->
  Forall pending_homework (homeworks (snd (serve env r w))).
Proof.
  intros W. destruct r as [body|body|header body|header|header body];
    cbn [serve].
  - destruct (register_cases env body w)
      as [[_ T]|(n & m & p & _ & _ & _ & _ & _ & H & _)].
    + unfold tables in T. injection T as _ H _. rewrite H. exact W.
    + rewrite H. exact W.
  - destruct (login_data env body w) as (_ & H & _). rewrite H. exact W.
  - destruct (gate_cases env header (fun user => post_homework user body) w)
      as [->|[user ->]]; [exact W|].
    destruct (submit_homeworks user body w) as [H|(t & c & Ht & Hc & H)];
      rewrite H; [exact W|].
    apply Forall_app. split; [exact W|]. constructor; [|constructor].
    repeat split.
    + exact (truthy_not_empty _ _ Ht).
    + exact (truthy_not_empty _ _ Hc).
  - destruct (gate_cases env header get_homework w) as [->|[user ->]];
      [exact W|].
    destruct (listing_data user w) as (_ & H & _). rewrite H. exact W.
  - destruct (gate_cases env header (fun user => post_bind_child user body) w)
      as [->|[user ->]]; [exact W|].
    destruct (bind_keeps user body w) as [_ H]. rewrite H. exact W.
Qed.

Lemma serve_users (r : Request) (w : World) :
  Forall hashed_identity (users w) ->
  Forall hashed_identity (users (snd (serve env r w))).
Proof.
  intros W. destruct r as [body|body|header body|header|header body];
    cbn [serve].
  - destruct (register_cases env body w)
      as [[_ T]|(n & m & p & Hn & Hm & Hp & _ & U & _)].
    + unfold tables in T. injection T as U _ _. rewrite U. exact W.
    + rewrite U. apply Forall_app. split; [exact W|].
      constructor; [|constructor]. unfold registered_row.
      repeat split.
      * exact (truthy_not_empty _ _ Hn).
      * exact (truthy_not_empty _ _ Hm).
      * apply js_or_not_empty. discriminate.
      * exists p. split; [exact (truthy_not_empty _ _ Hp) | reflexivity].
  - destruct (login_data env body w) as (U & _). rewrite U. exact W.
  - destruct (gate_cases env header (fun user => post_homework user body) w)
      as [->|[user ->]]; [exact W|].
    destruct (submit_same user body w) as (U & _). rewrite U. exact W.
  - destruct (gate_cases env header get_homework w) as [->|[user ->]];
      [exact W|].
    destruct (listing_data user w) as (U & _). rewrite U. exact W.
  - destruct (gate_cases env header (fun user => post_bind_child user body) w)
      as [->|[user ->]]; [exact W|].
    destruct (bind_keeps user body w) as [U _]. rewrite U. exact W.
Qed.

(** X18: in every state the server can reach, every homework row has
    status [pending] and a non-empty title and content: the submission
    route is the only writer of the table and no route updates a row. *)
Theorem stored_homework_is_pending (w : World) :
  reachable env w -> Forall pending_homework (homeworks w).
Proof.
  induction 1 as [|w t plan _ IH|w r _ IH].
  - constructor.
  - exact IH.
  - apply serve_homeworks, IH.
Qed.

(** X19: in every state the server can reach, every identity is marked
    verified, has a non-empty username, email and role, and its
    [password_hash] is the value [bcrypt.hash] returned, at cost 10, for a
    non-empty password: the registration route is the only writer of the
    table and no route updates a row. *)
Theorem stored_identities_are_hashed (w : World) :
  reachable env w -> Forall hashed_identity (users w).
Proof.
  induction 1 as [|w t plan _ IH|w r _ IH].
  - constructor.
  - exact IH.
  - apply serve_users, IH.
Qed.

End Stored.

Lemma stored_homework_is_pending_witness :
  homeworks
    (snd (serve Sample.env
            (PostHomework
               (Some ("Bearer " ++ jwt_sign (Claims.mk 1 "alice" "student")
                                            "default-secret-key" 0 60))
               (Submit.mk (Some "Essay") (Some "My summer")
                          (Some 9) (Some "mallory") (Some "graded")))
            Sample.family))
  = [Homework.mk 1 "alice" "Essay" "My summer" "pending" 0]
  /\ Forall pending_homework
       (homeworks
          (snd (serve Sample.env
                  (PostHomework
                     (Some ("Bearer "
                            ++ jwt_sign (Claims.mk 1 "alice" "student")
                                        "default-secret-key" 0 60))
                     (Submit.mk (Some "Essay") (Some "My summer")
                                (Some 9) (Some "mallory") (Some "graded")))
                  Sample.family))).
Proof.
  split; [vm_compute; reflexivity|].
  apply (stored_homework_is_pending Sample.env).
  apply reachable_request. unfold Sample.family.
  repeat apply reachable_request. apply reachable_initial.
Defined.

Lemma stored_identities_are_hashed_witness :
  List.length (users Sample.family) = 2%nat
  /\ Forall hashed_identity (users Sample.family).
Proof.
  split; [vm_compute; reflexivity|].
  apply (stored_identities_are_hashed Sample.env).
  unfold Sample.family.
  repeat apply reachable_request. apply reachable_initial.
Defined.

(** ** Store calls per request *)

Lemma calls_one {A} (l : list A) (x : A) :
  List.length (skipn (List.length l) (l ++ [x])) = 1%nat.
Proof. rewrite calls_after. reflexivity. Qed.

Lemma calls_two {A} (l : list A) (x y : A) :
  List.length (skipn (List.length l) ((l ++ [x]) ++ [y])) = 2%nat.
Proof. rewrite <- app_assoc, calls_after. reflexivity. Qed.

Section Calls.

Context {B : Bcrypt} {J : Jwt} {PG : Postgrest}.
Variable env : Env.
Variable w : World.

Lemma login_calls (body : Login.t) :
  List.length (calls_of (post_login env body) w) = 1%nat.
Proof.
  unfold calls_of, post_login, try_catch, bind, await.
  set (f := OrUsernameEmail _ _).
  pose proof (select_user_log (fun u => u) f w) as L.
  destruct (select_user (fun u => u) f w) as [[e1|[u|]] w1];
    cbn [fst snd reply_error] in L.
  - unfold ret. cbn [snd]. rewrite L. apply calls_one.
  - unfold compare. destruct (Login.password body) as [p|];
      [unfold ret; destruct (bcrypt_compare p (User.password_hash u))|];
      cbn [negb fst snd]; unfold sign, now, bind, ret, throw; cbn [fst snd];
      rewrite L; apply calls_one.
  - unfold ret. cbn [snd]. rewrite L. apply calls_one.
Qed.

Lemma submit_calls (user : Session.t) (body : Submit.t) :
  (List.length (calls_of (post_homework user body) w) <= 1)%nat.
Proof.
  unfold calls_of, post_homework, try_catch, bind, await.
  destruct (negb _);
    [unfold ret; cbn [snd]; rewrite calls_none; cbn; lia|].
  destruct (truthy (Submit.title body)) as [t|];
    [|unfold ret; cbn [snd]; rewrite calls_none; cbn; lia].
  destruct (truthy (Submit.content body)) as [k|];
    [|unfold ret; cbn [snd]; rewrite calls_none; cbn; lia].
  pose proof (insert_homework_log (Session.userId user)
                (Session.username user) t k "pending" w) as L.
  destruct (insert_homework _ _ _ _ _ w) as [[e1|u] w1];
    cbn [fst snd reply_error] in L; unfold ret, throw; cbn [fst snd];
    rewrite L, calls_one; lia.
Qed.

Lemma listing_calls (user : Session.t) :
  (1 <= List.length (calls_of (get_homework user) w) <= 2)%nat.
Proof.
  assert (Q : forall f w0 n,
             (forall x, List.length
                          (skipn (List.length (log w)) (log w0 ++ [x])) = n) ->
             List.length
               (skipn (List.length (log w))
                  (log (snd (try_catch
                     (found <- await (select_homeworks f) ;;
                      match found with
                      | inl error => throw error
                      | inr rows => ret (json 200 (RowsBody rows))
                      end)%handler
                     (fun _ => json 500 (ErrorBody "無法取得資料")) w0))))
             = n).
  { intros f w0 n Hn. unfold try_catch, bind, await.
    pose proof (select_homeworks_log f w0) as L.
    destruct (select_homeworks f w0) as [[e1|rows] w1];
      cbn [fst snd reply_error] in L; unfold ret, throw; cbn [fst snd];
      rewrite L; apply Hn. }
  assert (Q0 : forall f,
             List.length
               (skipn (List.length (log w))
                  (log (snd (try_catch
                     (found <- await (select_homeworks f) ;;
                      match found with
                      | inl error => throw error
                      | inr rows => ret (json 200 (RowsBody rows))
                      end)%handler
                     (fun _ => json 500 (ErrorBody "無法取得資料")) w))))
             = 1%nat).
  { intros f. apply Q. intros x. apply calls_one. }
  assert (R : forall n : nat, (n = 1 \/ n = 2)%nat -> (1 <= n <= 2)%nat)
    by (intros n [->| ->]; lia).
  unfold calls_of, get_homework, scope_query.
  destruct (String.eqb (Session.role user) "student");
    [apply R; left; apply Q0|].
  destruct (String.eqb (Session.role user) "teacher");
    [apply R; left; apply Q0|].
  destruct (String.eqb (Session.role user) "parent");
    [|apply R; left; apply Q0].
  unfold try_catch, bind, await.
  pose proof (select_parent_child_log (Session.userId user) w) as L.
  destruct (select_parent_child (Session.userId user) w)
    as [[e1|[|r rs]] w1]; cbn [fst snd reply_error] in L.
  - unfold throw. cbn [snd]. rewrite L, calls_one. lia.
  - unfold ret. cbn [snd]. rewrite L, calls_one. lia.
  - unfold ret. apply R. right.
    specialize (Q (InStudents (map ParentChild.child_id (r :: rs))) w1 2%nat).
    unfold try_catch, bind, await in Q. apply Q.
    intros x. rewrite L. apply calls_two.
Qed.

Lemma bind_calls (user : Session.t) (body : Bind.t) :
  (List.length (calls_of (post_bind_child user body) w) <= 2)%nat.
Proof.
  unfold calls_of, post_bind_child, try_catch, bind, await.
  destruct (negb _);
    [unfold ret; cbn [snd]; rewrite calls_none; cbn; lia|].
  destruct (truthy (Bind.childUsername body)) as [n|];
    [|unfold ret; cbn [snd]; rewrite calls_none; cbn; lia].
  set (cols := fun u : User.t => (User.id u, User.role u)).
  pose proof (select_user_log cols (EqUsername n) w) as L.
  destruct (select_user cols (EqUsername n) w) as [[e1|[child|]] w1];
    cbn [fst snd reply_error] in L;
    try (unfold ret, throw; cbn [snd]; rewrite L, calls_one; lia).
  destruct (negb (String.eqb (snd child) "student"));
    [unfold ret; cbn [snd]; rewrite L, calls_one; lia|].
  pose proof (insert_parent_child_log (Session.userId user) (fst child) w1)
    as L2.
  destruct (insert_parent_child (Session.userId user) (fst child) w1)
    as [[e2|u] w2]; cbn [fst snd reply_error] in L2;
    [destruct (code_is e2 "23505")|]; unfold ret, throw; cbn [fst snd];
    rewrite L2, L, calls_two; lia.
Qed.

Lemma register_calls (body : Register.t) :
  (List.length (calls_of (post_register env body) w) <= 2)%nat.
Proof.
  unfold calls_of, post_register, try_catch, bind, await.
  destruct (truthy (Register.username body)) as [n0|];
    [|unfold ret; cbn [snd]; rewrite calls_none; cbn; lia].
  destruct (truthy (Register.email body)) as [m0|];
    [|unfold ret; cbn [snd]; rewrite calls_none; cbn; lia].
  destruct (truthy (Register.password body)) as [p|];
    [|unfold ret; cbn [snd]; rewrite calls_none; cbn; lia].
  pose proof (select_user_log User.id (OrUsernameEmail n0 m0) w) as L.
  destruct (select_user User.id (OrUsernameEmail n0 m0) w) as [r1 w1].
  cbn [fst snd] in L.
  set (r := js_or (Register.role body) "student").
  pose proof (insert_user_log n0 m0 (bcrypt_hash p 10) r true w1) as L2.
  destruct r1 as [e1|[x|]];
    [| unfold ret; cbn [fst snd]; rewrite L, calls_one; lia |];
    (destruct (insert_user n0 m0 (bcrypt_hash p 10) r true w1)
       as [[e2|u] w2]; cbn [fst snd reply_error] in L2;
     unfold sign, now, bind, ret, throw; cbn [fst snd];
     rewrite L2, L, calls_two; lia).
Qed.

(** A request to a protected route whose header has no token that
    verifies is stopped by the gate before any store call. *)
Lemma stopped_at_the_gate (header : JsField)
  (next : Session.t -> World -> Response * World) :
  (forall token,
      truthy (bearer header) = Some token ->
      jwt_verify token (JWT_SECRET env) (clock w) = None) ->
  calls_of (authenticateToken env header next) w = [].
Proof.
  intros H. unfold calls_of, authenticateToken.
  destruct (truthy (bearer header)) as [token|];
    [rewrite (H token eq_refl)|]; cbn [snd]; apply calls_none.
Qed.

(** X20: no request calls the store more than twice, whatever the store
    answers: a login issues exactly one call, a submission at most one, a
    listing one or two, a binding and a registration at most two; a
    request to a protected route that the gate stops (no token, or a
    token that does not verify) issues none. *)
Theorem store_calls_per_request (r : Request) :
  (List.length (calls_of (serve env r) w) <= 2)%nat
  /\ (forall body, List.length (calls_of (post_login env body) w) = 1%nat)
  /\ (forall user body,
         (List.length (calls_of (post_homework user body) w) <= 1)%nat)
  /\ (forall user,
         (1 <= List.length (calls_of (get_homework user) w) <= 2)%nat)
  /\ (forall header submission binding,
         (forall token,
             truthy (bearer header) = Some token ->
             jwt_verify token (JWT_SECRET env) (clock w) = None) ->
         calls_of (serve env (PostHomework header submission)) w = []
         /\ calls_of (serve env (GetHomework header)) w = []
         /\ calls_of (serve env (PostBindChild header binding)) w = []).
Proof.
  split; [|split; [exact login_calls | split;
                   [exact submit_calls | split; [exact listing_calls|]]]].
  2:{ intros header submission binding H. cbn [serve].
      repeat split; apply stopped_at_the_gate, H. }
  assert (G : forall header next,
             (forall user,
                 (List.length (calls_of (next user) w) <= 2)%nat) ->
             (List.length (calls_of (authenticateToken env header next) w)
              <= 2)%nat).
  { intros header next H. unfold calls_of.
    destruct (gate_cases env header next w) as [E|[user E]]; rewrite E.
    - rewrite calls_none. cbn. lia.
    - apply H. }
  destruct r as [body|body|header body|header|header body]; cbn [serve].
  - apply register_calls.
  - rewrite login_calls. lia.
  - apply G. intros user. pose proof (submit_calls user body). lia.
  - apply G. intros user. pose proof (listing_calls user). lia.
  - apply G. intros user. apply bind_calls.
Qed.

End Calls.

(** The failed listing of a teacher is answered 500. *)
Lemma store_failures_surface_witness :
  is_StoreError
    (fst (get_homework (Sample.session Sample.ted)
            (with_faults [Some Sample.outage] Sample.school)))
  = true.
Proof.
  destruct (store_failures_surface Sample.env) as (_ & _ & Hlist & _).
  apply (Hlist (Sample.session Sample.ted)
           (with_faults [Some Sample.outage] Sample.school)
           (SelectHomeworks AllHomeworks) Sample.outage).
  left. reflexivity.
Defined.

(** A listing asked with a token that does not verify calls no store. *)
Lemma store_calls_per_request_witness :
  calls_of (serve Sample.env (GetHomework (Some "Bearer junk"))) Sample.school
  = [].
Proof.
  destruct (store_calls_per_request Sample.env Sample.school
              (GetHomework None)) as (_ & _ & _ & _ & Hgate).
  apply (Hgate (Some "Bearer junk") (Submit.mk None None None None None)
           (Bind.mk None)).
  intros token H. injection H as <-. reflexivity.
Defined.
